(** * Product Marketer AI Assistant: the prompt builder and the page script

    A shallow embedding of the Streamlit script [2.py]: the helper
    [generate_content] (prompt template, one call of the completion client) and the
    top-level script that is re-run on every user interaction (credential
    check, form, generate / regenerate / download section).

    Conventions.
    - A Python [str] is a sequence of Unicode code points: [pystr := list N].
      Program literals are written as Rocq strings and embedded with [lit]
      (every literal of the prompt and of the messages is ASCII; the emoji of
      the labels are given by their code points).
    - Keys of dictionaries ([st.session_state], [os.environ]) are program
      literals and stay Rocq strings; the dictionaries are [gmap]s.
    - A run of the script is a computation in a state-and-exception monad
      [script]: the state is the session dictionary, the elements written to
      the page and the calls made to [client.chat.completions.create].
    - Library calls are modelled at the level the script sees them: what
      [create] is called with and what it returns or raises (the retries
      the client may make inside one call are not the script's), and which
      calls of Streamlit raise. *)

From Stdlib Require Import ZArith NArith QArith String Ascii List DecimalString.
From Stdlib Require Import Strings.Byte.
From stdpp Require Import gmap strings list fin_maps.

Local Open Scope string_scope.
Local Open Scope list_scope.

(** ** Python strings *)

Module PyStr.

(** A code point; a Python [str] only holds values below [0x110000]. *)
Definition pystr : Type := list N.

Definition lit (s : string) : pystr :=
  map N_of_ascii (list_ascii_of_string s).

(** [str(n)] for an [int]: the decimal numeral, with a minus sign. *)
Definition str_of_int (n : Z) : pystr :=
  lit (NilZero.string_of_int (Z.to_int n)).

(** Truthiness of a [str]: empty is false. *)
Definition nonempty (s : pystr) : bool :=
  match s with [] => false | _ :: _ => true end.

(** [a in b] for strings. *)
Definition is_substring (a b : pystr) : Prop :=
  exists pre post : pystr, b = pre ++ a ++ post.

Fixpoint starts_with (pat s : pystr) : bool :=
  match pat, s with
  | [], _ => true
  | _ :: _, [] => false
  | p :: pat', c :: s' => (p =? c)%N && starts_with pat' s'
  end.

(** Number of positions of [s] at which [pat] occurs. *)
Fixpoint occurrences (pat s : pystr) : nat :=
  match s with
  | [] => if starts_with pat [] then 1 else 0
  | _ :: s' => (if starts_with pat s then 1 else 0) + occurrences pat s'
  end.

Definition contains (pat s : pystr) : bool :=
  negb (occurrences pat s =? 0)%nat.

(** *** [str.encode("utf-8")]

    The strict UTF-8 codec: one to four bytes per code point, and
    [UnicodeEncodeError] on a surrogate ([None] here). *)

Definition byte_of_N (n : N) : byte :=
  match Byte.of_N n with Some b => b | None => x00 end.

Definition utf8_encode_char (ch : N) : option (list byte) :=
  if (ch <? 0x80)%N then
    Some [byte_of_N ch]
  else if (ch <? 0x800)%N then
    Some [byte_of_N (N.lor 0xc0 (N.shiftr ch 6));
          byte_of_N (N.lor 0x80 (N.land ch 0x3f))]
  else if (ch <? 0x10000)%N then
    if (0xD800 <=? ch)%N && (ch <=? 0xDFFF)%N then None
    else
      Some [byte_of_N (N.lor 0xe0 (N.shiftr ch 12));
            byte_of_N (N.lor 0x80 (N.land (N.shiftr ch 6) 0x3f));
            byte_of_N (N.lor 0x80 (N.land ch 0x3f))]
  else if (ch <? 0x110000)%N then
    Some [byte_of_N (N.lor 0xf0 (N.shiftr ch 18));
          byte_of_N (N.lor 0x80 (N.land (N.shiftr ch 12) 0x3f));
          byte_of_N (N.lor 0x80 (N.land (N.shiftr ch 6) 0x3f));
          byte_of_N (N.lor 0x80 (N.land ch 0x3f))]
  else None.

Fixpoint utf8_encode (s : pystr) : option (list byte) :=
  match s with
  | [] => Some []
  | ch :: s' =>
      match utf8_encode_char ch, utf8_encode s' with
      | Some bs, Some rest => Some (bs ++ rest)
      | _, _ => None
      end
  end.

(** The matching strict decoder, used to state that [utf8_encode] loses
    nothing. *)
Definition continuation (b : byte) : option N :=
  let n := Byte.to_N b in
  if (N.land n 0xc0 =? 0x80)%N then Some (N.land n 0x3f) else None.

(** Decodes the code point at the head of [bs]; gives it with the bytes
    that follow. Overlong forms, surrogates and values from [0x110000] on
    are refused. *)
Definition utf8_decode_char (bs : list byte) : option (N * list byte) :=
  match bs with
  | [] => None
  | b0 :: bs1 =>
      let n0 := Byte.to_N b0 in
      if (n0 <? 0x80)%N then Some (n0, bs1)
      else if (N.land n0 0xe0 =? 0xc0)%N then
        match bs1 with
        | b1 :: bs2 =>
            match continuation b1 with
            | Some c1 =>
                let ch := N.lor (N.shiftl (N.land n0 0x1f) 6) c1 in
                if (0x80 <=? ch)%N then Some (ch, bs2) else None
            | None => None
            end
        | _ => None
        end
      else if (N.land n0 0xf0 =? 0xe0)%N then
        match bs1 with
        | b1 :: b2 :: bs3 =>
            match continuation b1, continuation b2 with
            | Some c1, Some c2 =>
                let ch := N.lor (N.shiftl (N.land n0 0x0f) 12)
                            (N.lor (N.shiftl c1 6) c2) in
                if (0x800 <=? ch)%N
                   && negb ((0xD800 <=? ch)%N && (ch <=? 0xDFFF)%N)
                then Some (ch, bs3) else None
            | _, _ => None
            end
        | _ => None
        end
      else if (N.land n0 0xf8 =? 0xf0)%N then
        match bs1 with
        | b1 :: b2 :: b3 :: bs4 =>
            match continuation b1, continuation b2, continuation b3 with
            | Some c1, Some c2, Some c3 =>
                let ch := N.lor (N.shiftl (N.land n0 0x07) 18)
                            (N.lor (N.shiftl c1 12)
                               (N.lor (N.shiftl c2 6) c3)) in
                if (0x10000 <=? ch)%N && (ch <? 0x110000)%N
                then Some (ch, bs4) else None
            | _, _, _ => None
            end
        | _ => None
        end
      else None
  end.

Fixpoint utf8_decode_fuel (fuel : nat) (bs : list byte) : option pystr :=
  match bs with
  | [] => Some []
  | _ :: _ =>
      match fuel with
      | O => None
      | S fuel' =>
          match utf8_decode_char bs with
          | Some (ch, rest) =>
              match utf8_decode_fuel fuel' rest with
              | Some s => Some (ch :: s)
              | None => None
              end
          | None => None
          end
      end
  end.

(** Each step consumes a byte: the length of the input is fuel enough. *)
Definition utf8_decode (bs : list byte) : option pystr :=
  utf8_decode_fuel (length bs) bs.

(** [check_range d lo] tests [P] on the [2^d] numbers from [lo] on. *)
Fixpoint check_range (P : N -> bool) (d : nat) (lo : N) : bool :=
  match d with
  | O => P lo
  | S d' => check_range P d' lo && check_range P d' (lo + 2 ^ N.of_nat d')
  end.

(** The facts about single bytes the codec relies on, as tests over the
    bit field the byte carries. *)
Definition ascii_byte_ok (ch : N) : bool :=
  (Byte.to_N (byte_of_N ch) =? ch)%N.

Definition continuation_ok (x : N) : bool :=
  match continuation (byte_of_N (N.lor 0x80 x)) with
  | Some y => (y =? x)%N
  | None => false
  end.

Definition lead2_ok (h : N) : bool :=
  let n0 := Byte.to_N (byte_of_N (N.lor 0xc0 h)) in
  negb (n0 <? 0x80)%N && (N.land n0 0xe0 =? 0xc0)%N
  && (N.land n0 0x1f =? h)%N.

Definition lead3_ok (h : N) : bool :=
  let n0 := Byte.to_N (byte_of_N (N.lor 0xe0 h)) in
  negb (n0 <? 0x80)%N && negb (N.land n0 0xe0 =? 0xc0)%N
  && (N.land n0 0xf0 =? 0xe0)%N && (N.land n0 0x0f =? h)%N.

Definition lead4_ok (h : N) : bool :=
  let n0 := Byte.to_N (byte_of_N (N.lor 0xf0 h)) in
  negb (n0 <? 0x80)%N && negb (N.land n0 0xe0 =? 0xc0)%N
  && negb (N.land n0 0xf0 =? 0xe0)%N && (N.land n0 0xf8 =? 0xf0)%N
  && (N.land n0 0x07 =? h)%N.

(** *** What [str.encode("utf-8")] raises

    A Unicode scalar value is a code point that is not a surrogate. The
    codec refuses the first run of surrogates it meets: the
    [UnicodeEncodeError] names that character, or the positions of the run
    when it is longer than one. *)
Definition is_scalar (ch : N) : bool :=
  (ch <? 0xD800)%N || ((0xDFFF <? ch)%N && (ch <? 0x110000)%N).

Definition hex_digit (d : N) : N :=
  if (d <? 10)%N then (48 + d)%N else (87 + d)%N.

(** The [n] lowest hexadecimal digits of [ch], most significant first. *)
Fixpoint hex_digits (n : nat) (ch : N) : pystr :=
  match n with
  | O => []
  | S n' => hex_digits n' (ch / 16) ++ [hex_digit (ch mod 16)]
  end.

(** The character as the message shows it: [\xNN], [\uNNNN] or
    [\UNNNNNNNN]. *)
Definition escape_char (ch : N) : pystr :=
  if (ch <=? 0xff)%N then lit "\x" ++ hex_digits 2 ch
  else if (ch <=? 0xffff)%N then lit "\u" ++ hex_digits 4 ch
  else lit "\U" ++ hex_digits 8 ch.

(** Length of the run of refused code points at the head of [s]. *)
Fixpoint unencodable_run (s : pystr) : nat :=
  match s with
  | ch :: s' => if is_scalar ch then O else S (unencodable_run s')
  | [] => O
  end.

(** The first refused code point of [s], counting positions from [i]:
    its position, the code point, and the length of its run. *)
Fixpoint first_unencodable (i : nat) (s : pystr) : option (nat * N * nat) :=
  match s with
  | [] => None
  | ch :: s' =>
      if is_scalar ch then first_unencodable (S i) s'
      else Some (i, ch, S (unencodable_run s'))
  end.

(** [str(e)] for the [UnicodeEncodeError] of encoding [s]. *)
Definition unicode_encode_message (s : pystr) : pystr :=
  match first_unencodable O s with
  | Some (i, ch, 1%nat) =>
      lit "'utf-8' codec can't encode character '" ++ escape_char ch
      ++ lit "' in position " ++ str_of_int (Z.of_nat i)
      ++ lit ": surrogates not allowed"
  | Some (i, _, n) =>
      lit "'utf-8' codec can't encode characters in position "
      ++ str_of_int (Z.of_nat i) ++ lit "-"
      ++ str_of_int (Z.of_nat (i + n - 1))
      ++ lit ": surrogates not allowed"
  | None => []
  end.

(** *** [textwrap.dedent(text).strip()]

    What Streamlit does to a text before it renders it as markdown. *)

(** [text.split("\n")] *)
Fixpoint split_lines (s : pystr) : list pystr :=
  match s with
  | [] => [[]]
  | ch :: s' =>
      if (ch =? 10)%N then [] :: split_lines s'
      else
        match split_lines s' with
        | l :: ls => (ch :: l) :: ls
        | [] => [[ch]]
        end
  end.

(** ["\n".join(lines)] *)
Fixpoint join_lines (ls : list pystr) : pystr :=
  match ls with
  | [] => []
  | [l] => l
  | l :: ls' => l ++ 10%N :: join_lines ls'
  end.

(** Space or tab. *)
Definition is_blank (ch : N) : bool := (ch =? 32)%N || (ch =? 9)%N.

Fixpoint take_while (f : N -> bool) (s : pystr) : pystr :=
  match s with
  | ch :: s' => if f ch then ch :: take_while f s' else []
  | [] => []
  end.

Fixpoint drop_while (f : N -> bool) (s : pystr) : pystr :=
  match s with
  | ch :: s' => if f ch then drop_while f s' else s
  | [] => []
  end.

(** The leading blanks of a line that has something else on it. *)
Definition line_indent (l : pystr) : option pystr :=
  match drop_while is_blank l with
  | [] => None
  | _ :: _ => Some (take_while is_blank l)
  end.

Fixpoint common_prefix (a b : pystr) : pystr :=
  match a, b with
  | x :: a', y :: b' => if (x =? y)%N then x :: common_prefix a' b' else []
  | _, _ => []
  end.

(** The margin shared by the lines that are not blank, if there is such a
    line. *)
Fixpoint margin_of (ls : list pystr) (margin : option pystr)
  : option pystr :=
  match ls with
  | [] => margin
  | l :: ls' =>
      match line_indent l, margin with
      | Some ind, Some m => margin_of ls' (Some (common_prefix m ind))
      | Some ind, None => margin_of ls' (Some ind)
      | None, _ => margin_of ls' margin
      end
  end.

Definition remove_margin (m l : pystr) : pystr :=
  if starts_with m l then skipn (length m) l else l.

(** [textwrap.dedent]: lines of blanks only become empty, then the common
    margin is taken off every line that starts with it. *)
Definition dedent (text : pystr) : pystr :=
  let lines :=
    map (fun l => if forallb is_blank l then [] else l) (split_lines text) in
  match margin_of lines None with
  | Some (ch :: m) => join_lines (map (remove_margin (ch :: m)) lines)
  | _ => join_lines lines
  end.

(** [str.isspace] on one character. *)
Definition is_space (ch : N) : bool :=
  ((9 <=? ch) && (ch <=? 13))%N || ((28 <=? ch) && (ch <=? 32))%N
  || (ch =? 0x85)%N || (ch =? 0xa0)%N || (ch =? 0x1680)%N
  || ((0x2000 <=? ch) && (ch <=? 0x200a))%N
  || (ch =? 0x2028)%N || (ch =? 0x2029)%N || (ch =? 0x202f)%N
  || (ch =? 0x205f)%N || (ch =? 0x3000)%N.

(** [str.strip()] *)
Definition strip (s : pystr) : pystr :=
  rev (drop_while is_space (rev (drop_while is_space s))).

Definition clean_text (text : pystr) : pystr := strip (dedent text).

End PyStr.
Import PyStr.

(** ** Python values held by the session and returned by the provider *)

Inductive pyval : Type :=
| PNone
| PStr (s : pystr).

(** [str(v)], as an f-string field formats it. *)
Definition py_str (v : pyval) : pystr :=
  match v with
  | PNone => lit "None"
  | PStr s => s
  end.

(** Truthiness: [None] and the empty string are false. *)
Definition truthy (v : pyval) : bool :=
  match v with
  | PNone => false
  | PStr s => nonempty s
  end.

(** ** The prompt builder of [generate_content] *)

Definition GROQ_MODEL : pystr := lit "llama-3.1-8b-instant".

Definition paragraph_map : gmap pystr pystr :=
  <[lit "Short (1 paragraph)" := lit "1 paragraph"]>
  (<[lit "Medium (2 paragraphs)" := lit "2 paragraphs"]>
  (<[lit "Long (3 paragraphs)" := lit "3 paragraphs"]> ∅)).

(** [paragraph_map.get(description_length, "2 paragraphs")] *)
Definition actual_description_length (description_length : pystr) : pystr :=
  default (lit "2 paragraphs") (paragraph_map !! description_length).

(** The f-string of [generate_content], cut at its fields.  The text up to
    and including the request sentences: *)
Definition prompt_brief
    (product_name product_category key_features target_audience
     tone_of_voice : pystr) (length_phrase : pystr) (num_descriptions : Z)
  : pystr :=
  lit "
    You are an expert product marketer and e-commerce copywriter. Your task is to create engaging, unique, and SEO-friendly product descriptions
    and a list of relevant hashtags for social media.

    Here are the product details:
    - **Product Name:** " ++ product_name ++ lit "
    - **Product Category:** " ++ product_category ++ lit "
    - **Key Features:**
    " ++ key_features ++ lit "
    - **Target Audience:** " ++ target_audience ++ lit "
    - **Tone of Voice:** " ++ tone_of_voice ++ lit "
    - **Desired Description Length:** " ++ length_phrase ++ lit "

    Please generate " ++ str_of_int num_descriptions ++
  lit " distinct product description(s) that highlight the product's benefits,
    address the target audience's needs, and resonate with the specified tone.
    Each description should be approximately " ++ length_phrase ++ lit " long.
    
    After each description, generate a comma-separated list of at least 10 relevant hashtags for social media,
    starting with '#'.
".

(** The rest of the f-string, which has no field: the output format asked
    of the model. *)
Definition prompt_output_format : pystr :=
  lit "
    Format your output clearly as follows:

    ---
    **Description 1:**
    [Generated Description 1 here]
    
    **Hashtags 1:** #[hashtag1], #[hashtag2], #[hashtag3], ...
    ---

    **Description 2:**
    [Generated Description 2 here]
    
    **Hashtags 2:** #[hashtag1], #[hashtag2], #[hashtag3], ...
    ---
    ".

Definition build_prompt
    (product_name product_category key_features target_audience
     tone_of_voice description_length : pystr) (num_descriptions : Z)
  : pystr :=
  let actual_description_length :=
    actual_description_length description_length in
  prompt_brief product_name product_category key_features target_audience
    tone_of_voice actual_description_length num_descriptions
  ++ prompt_output_format.

(** ** Exceptions, requests and the completion provider *)

(** A Python exception; [str(e)] is [exn_msg]. *)
Record exn : Type := Exn { exn_class : string; exn_msg : pystr }.

Record message : Type := Message { role : pystr; content : pystr }.

(** The arguments of one call of [client.chat.completions.create], with
    the key of the client that makes it. *)
Record request : Type := Request {
  api_key : pyval;
  messages : list message;
  model : pystr;
  temperature : Q;
  max_tokens : Z
}.

(** How a call of [create] ends: it raises, or returns a completion, given
    by the [message.content] of each of its choices. *)
Definition completion : Type := list pyval.
Definition provider : Type := request -> exn + completion.

(** The client object built by [Groq(api_key=...)]. *)
Record groq_client : Type := Client { client_key : pyval }.

(** ** The page *)

Inductive element : Type :=
| PageConfig (page_title page_icon layout : pystr)
| Title (body : pystr)
| Markdown (body : pyval)
| Divider
| Header (body : pystr)
| Subheader (body : pystr)
| TextInput (label value : pystr)
| TextArea (label value : pystr)
| Selectbox (label : pystr) (options : list pystr) (value : pystr)
| Radio (label : pystr) (options : list pystr) (value : pystr)
| Button (label : pystr)
| DownloadButton (label : pystr) (data : list byte) (file_name mime : pystr)
| Spinner (text : pystr)
| Error (body : pystr)
| Warning (body : pystr)
| Success (body : pystr).

(** ** The script monad *)

Record state : Type := State {
  session_state : gmap string pyval;   (* [st.session_state] *)
  page : list element;                 (* elements written, in order *)
  sent : list request                  (* calls of [create], in order *)
}.

(** How a computation ends: with a value, with a Python exception, or in
    [st.stop()], which no [except Exception] catches. *)
Inductive outcome (A : Type) : Type :=
| Return (a : A)
| Raise (e : exn)
| Stop.
Arguments Return {A} a.
Arguments Raise {A} e.
Arguments Stop {A}.

Definition script (A : Type) : Type := state -> outcome A * state.

Definition ret {A} (a : A) : script A := fun s => (Return a, s).

Definition bind {A B} (m : script A) (k : A -> script B) : script B :=
  fun s =>
    match m s with
    | (Return a, s') => k a s'
    | (Raise e, s') => (Raise e, s')
    | (Stop, s') => (Stop, s')
    end.

Declare Scope script_scope.
Delimit Scope script_scope with script.
Bind Scope script_scope with script.
Notation "'let*' x ':=' m 'in' k" := (bind m (fun x => k))
  (at level 10, x name, m at level 100, k at level 200) : script_scope.
Notation "m '>>' k" := (bind m (fun _ => k))
  (at level 90, right associativity) : script_scope.
Local Open Scope script_scope.

Definition raise {A} (e : exn) : script A := fun s => (Raise e, s).

(** [try: body / except Exception as e: handler e] *)
Definition try_except {A} (body : script A) (handler : exn -> script A)
  : script A :=
  fun s =>
    match body s with
    | (Raise e, s') => handler e s'
    | r => r
    end.

Definition when (c : bool) (m : script unit) : script unit :=
  if c then m else ret tt.

Definition emit (el : element) : script unit :=
  fun s => (Return tt, State (session_state s) (page s ++ [el]) (sent s)).

Definition st_stop {A} : script A := fun s => (Stop, s).

(** [k in st.session_state] *)
Definition session_contains (k : string) : script bool :=
  fun s => (Return (bool_decide (is_Some (session_state s !! k))), s).

(** [st.session_state[k]], a [KeyError] when absent *)
Definition session_getitem (k : string) : script pyval :=
  fun s =>
    match session_state s !! k with
    | Some v => (Return v, s)
    | None => (Raise (Exn "KeyError" (lit k)), s)
    end.

(** [st.session_state.get(k, d)] *)
Definition session_get (k : string) (d : pyval) : script pyval :=
  fun s => (Return (default d (session_state s !! k)), s).

(** [st.session_state[k] = v] *)
Definition session_setitem (k : string) (v : pyval) : script unit :=
  fun s => (Return tt, State (<[k := v]> (session_state s)) (page s) (sent s)).

(** [v.encode("utf-8")] *)
Definition encode_utf8 (v : pyval) : script (list byte) :=
  match v with
  | PNone => raise (Exn "AttributeError" (lit "'NoneType' object has no attribute 'encode'"))
  | PStr s =>
      match utf8_encode s with
      | Some bs => ret bs
      | None => raise (Exn "UnicodeEncodeError" (unicode_encode_message s))
      end
  end.

(** [xs[0]] *)
Definition getitem0 {A} (xs : list A) : script A :=
  match xs with
  | x :: _ => ret x
  | [] => raise (Exn "IndexError" (lit "list index out of range"))
  end.

(** ** What a run of the script is given *)

(** The process environment after [load_dotenv()], and whether the [Groq]
    constructor raises. *)
Record environment : Type := Environment {
  environ : gmap string pystr;
  groq_init_failure : option exn
}.

Inductive button : Type :=
| GenerateButton
| RegenerateButton
| DownloadContentButton.

Global Instance button_eq_dec : EqDecision button.
Proof. solve_decision. Defined.

(** The values the front end holds for the form widgets in this run, and
    the button whose click triggered the run, if any. *)
Record inputs : Type := Inputs {
  in_product_name : pystr;
  in_product_category : pystr;
  in_key_features : pystr;
  in_target_audience : pystr;
  in_tone_of_voice : pystr;
  in_description_length : pystr;
  clicked : option button
}.

Definition tone_options : list pystr :=
  [lit "Professional"; lit "Friendly"; lit "Luxurious"; lit "Adventurous";
   lit "Playful"; lit "Informative"; lit "Persuasive"; lit "Funny/Humor"].

Definition length_options : list pystr :=
  [lit "Short (1 paragraph)"; lit "Medium (2 paragraphs)";
   lit "Long (3 paragraphs)"].

(** The widgets' values on a first visit (their declared defaults). *)
Definition initial_inputs : inputs := {|
  in_product_name := lit "Luxury Handcrafted Leather Wallet";
  in_product_category := lit "Accessories";
  in_key_features := lit "- Premium full-grain leather
- Hand-stitched for durability
- Slim design, holds 8 cards and cash
- RFID blocking technology
- Available in classic black and brown";
  in_target_audience := lit "Discerning professionals, minimalist enthusiasts";
  in_tone_of_voice := lit "Luxurious";
  in_description_length := lit "Medium (2 paragraphs)";
  clicked := None
|}.

Section App.

Variable env : environment.
Variable inp : inputs.
Variable prov : provider.

(** [os.getenv(k)] *)
Definition os_getenv (k : string) : pyval :=
  from_option PStr PNone (environ env !! k).

(** [Groq(api_key=k)] *)
Definition Groq (k : pyval) : script groq_client :=
  match groq_init_failure env with
  | Some e => raise e
  | None => ret (Client k)
  end.

(** [client.chat.completions.create(...)]: the call is recorded with its
    arguments, and ends as the provider says. How many HTTP requests the
    client makes within the call (it may retry) is not modelled. *)
Definition chat_completions_create (client : groq_client)
    (messages : list message) (model : pystr) (temperature : Q)
    (max_tokens : Z) : script completion :=
  fun s =>
    let req := Request (client_key client) messages model temperature
                 max_tokens in
    let s' := State (session_state s) (page s) (sent s ++ [req]) in
    match prov req with
    | inl e => (Raise e, s')
    | inr c => (Return c, s')
    end.

Definition st_error (body : pystr) : script unit := emit (Error body).
Definition st_warning (body : pystr) : script unit := emit (Warning body).
Definition st_success (body : pystr) : script unit := emit (Success body).
(** [st.markdown(body)]: Streamlit cleans the text ([None] is shown as its
    [str]) and stores it for the front end as UTF-8; with a surrogate in
    it this raises [UnicodeEncodeError], and nothing is written. *)
Definition markdown_failure (body : pyval) : option exn :=
  match body with
  | PStr s =>
      if forallb is_scalar s then None
      else Some (Exn "UnicodeEncodeError"
                   (unicode_encode_message (clean_text s)))
  | PNone => None
  end.

Definition st_markdown (body : pyval) : script unit :=
  match markdown_failure body with
  | Some e => raise e
  | None => emit (Markdown body)
  end.
Definition st_subheader (body : pystr) : script unit := emit (Subheader body).
Definition st_header (body : pystr) : script unit := emit (Header body).
Definition st_title (body : pystr) : script unit := emit (Title body).
Definition st_divider : script unit := emit Divider.

(** [with st.spinner(text): body] *)
Definition with_spinner {A} (text : pystr) (body : script A) : script A :=
  emit (Spinner text) >> body.

Definition st_text_input (label value : pystr) : script pystr :=
  emit (TextInput label value) >> ret value.
Definition st_text_area (label value : pystr) : script pystr :=
  emit (TextArea label value) >> ret value.
Definition st_selectbox (label : pystr) (options : list pystr)
    (value : pystr) : script pystr :=
  emit (Selectbox label options value) >> ret value.
Definition st_radio (label : pystr) (options : list pystr) (value : pystr)
  : script pystr :=
  emit (Radio label options value) >> ret value.

(** A button is true in the run its click triggered. *)
Definition st_button (label : pystr) (b : button) : script bool :=
  emit (Button label) >> ret (bool_decide (clicked inp = Some b)).

Definition st_download_button (label : pystr) (data : list byte)
    (file_name mime : pystr) : script bool :=
  emit (DownloadButton label data file_name mime) >>
  ret (bool_decide (clicked inp = Some DownloadContentButton)).

(** *** The texts shown by the script *)

Definition KEY_MISSING : pystr :=
  lit "Groq API key not found. Please set it in a '.env' file or as an environment variable (GROQ_API_KEY).".
Definition CLIENT_FAILED : pystr := lit "Failed to initialize Groq client: ".
Definition FIELDS_MISSING : pystr :=
  lit "Please provide at least a Product Name and Key Features to generate content.".
Definition API_CALL_FAILED : pystr := lit "An error occurred during API call: ".
Definition API_CALL_HINT : pystr :=
  lit "Please check your Groq API key and try again. You might also have reached your API rate limit or usage limits.".
Definition REGENERATION_FAILED : pystr :=
  lit "An error occurred during regeneration: ".
Definition REGENERATION_HINT : pystr :=
  lit "Please check your Groq API key and try again.".
Definition GENERATE_LABEL : pystr :=
  [0x1F680%N] ++ lit " Generate Descriptions & Hashtags".
Definition REGENERATE_LABEL : pystr :=
  [0x1F504%N] ++ lit " Regenerate with Same Inputs".
Definition DOWNLOAD_LABEL : pystr :=
  [0x2B07%N; 0xFE0F%N] ++ lit " Download Content".
Definition DOWNLOAD_SUFFIX : pystr := lit "_descriptions_hashtags.txt".

(** *** Configuration (lines 10-20) *)

Definition configuration : script groq_client :=
  let groq_api_key := os_getenv "GROQ_API_KEY" in
  when (negb (truthy groq_api_key))
    (st_error KEY_MISSING >> st_stop) >>
  try_except (Groq groq_api_key)
    (fun e =>
       st_error (CLIENT_FAILED ++ exn_msg e) >>
       st_stop).

(** *** [generate_content] (lines 28-86) *)

Definition system_message : message :=
  Message (lit "system")
    (lit "You are a helpful, creative, and experienced product marketer and e-commerce copywriter.").

Definition generate_content (client : groq_client)
    (product_name product_category key_features target_audience
     tone_of_voice description_length : pystr) (num_descriptions : Z)
  : script pyval :=
  let prompt :=
    build_prompt product_name product_category key_features target_audience
      tone_of_voice description_length num_descriptions in
  let messages := [system_message; Message (lit "user") prompt] in
  let* chat_completion :=
    chat_completions_create client messages GROQ_MODEL (8 # 10) 2048 in
  getitem0 chat_completion.

(** *** The form (lines 89-132) *)

Definition page_header : script unit :=
  emit (PageConfig (lit "Product Marketer AI Assistant") [0x1F4C8%N]
          (lit "wide")) >>
  st_title ([0x1F4C8%N] ++ lit " Product Marketer AI Assistant") >>
  st_markdown (PStr (lit "
Craft compelling product descriptions and social media hashtags instantly with the incredibly fast **Groq API**
powered by the **" ++ GROQ_MODEL ++ lit "** model. Perfect for product marketers!
")) >>
  st_divider.

(** *** The generate action (lines 135-153).  The call passes no count:
    [num_descriptions] takes its default, 2. *)

Definition llm_call_and_output (client : groq_client)
    (product_name product_category key_features target_audience
     tone_of_voice description_length : pystr) (generate_button : bool)
  : script unit :=
  when generate_button
    (if negb (nonempty product_name) || negb (nonempty key_features) then
       st_warning FIELDS_MISSING
     else
       with_spinner (lit "Creating content with " ++ GROQ_MODEL ++ lit "...")
         (try_except
            (let* generated_output :=
               generate_content client product_name product_category
                 key_features target_audience tone_of_voice
                 description_length 2 in
             session_setitem "generated_output" generated_output >>
             session_setitem "product_name_for_download" (PStr product_name) >>
             st_subheader ([0x2728%N] ++ lit " Your Generated Content") >>
             st_markdown generated_output >>
             st_success (lit "Content generated successfully!"))
            (fun e =>
               st_error (API_CALL_FAILED ++ exn_msg e) >>
               st_warning API_CALL_HINT))).

(** *** Regenerate and download (lines 156-183) *)

(** The left column: the regenerate button and its action. *)
Definition regenerate_column (client : groq_client)
    (product_name product_category key_features target_audience
     tone_of_voice description_length : pystr) : script unit :=
  let* regenerate := st_button REGENERATE_LABEL RegenerateButton in
  when regenerate
    (with_spinner (lit "Regenerating content with " ++ GROQ_MODEL ++ lit "...")
       (try_except
          (let* generated_output :=
             generate_content client product_name product_category
               key_features target_audience tone_of_voice
               description_length 2 in
           session_setitem "generated_output" generated_output >>
           st_subheader ([0x2728%N] ++ lit " Your Regenerated Content") >>
           st_markdown generated_output >>
           st_success (lit "Content regenerated successfully!"))
          (fun e =>
             st_error (REGENERATION_FAILED ++ exn_msg e) >>
             st_warning REGENERATION_HINT))).

(** The right column: the download button, with the file it offers. *)
Definition download_column : script unit :=
  let* name :=
    session_get "product_name_for_download" (PStr (lit "product")) in
  let filename := py_str name ++ DOWNLOAD_SUFFIX in
  let* output := session_getitem "generated_output" in
  let* data := encode_utf8 output in
  let* _ := st_download_button DOWNLOAD_LABEL data filename
              (lit "text/plain") in
  ret tt.

Definition regenerate_and_download (client : groq_client)
    (product_name product_category key_features target_audience
     tone_of_voice description_length : pystr) : script unit :=
  let* present := session_contains "generated_output" in
  let* shown :=
    if present then
      let* v := session_getitem "generated_output" in ret (truthy v)
    else ret false in
  when shown
    (st_divider >>
     regenerate_column client product_name product_category key_features
       target_audience tone_of_voice description_length >>
     download_column).

Definition page_footer : script unit :=
  st_markdown (PStr (lit "---")) >>
  st_markdown (PStr (lit "Made with " ++ [0x2764%N; 0xFE0F%N] ++
                     lit " by an AI Enthusiast " ++ [0x1F680%N])) >>
  st_markdown (PStr (lit "For internal use for product marketers use it to generate the content and then post it in social media. Always double-check generated content.")).

(** *** The whole script, top to bottom *)

Definition main : script unit :=
  let* client := configuration in
  page_header >>
  st_header ([0x270D%N; 0xFE0F%N] ++ lit " Product Details Input") >>
  let* product_name := st_text_input (lit "Product Name") (in_product_name inp) in
  let* product_category :=
    st_text_input (lit "Product Category") (in_product_category inp) in
  let* key_features :=
    st_text_area (lit "Key Features (one per line)") (in_key_features inp) in
  let* target_audience :=
    st_text_input (lit "Target Audience") (in_target_audience inp) in
  let* tone_of_voice :=
    st_selectbox (lit "Tone of Voice") tone_options (in_tone_of_voice inp) in
  let* description_length :=
    st_radio (lit "Description Length") length_options
      (in_description_length inp) in
  let* generate_button :=
    st_button GENERATE_LABEL GenerateButton in
  st_divider >>
  llm_call_and_output client product_name product_category key_features
    target_audience tone_of_voice description_length generate_button >>
  regenerate_and_download client product_name product_category key_features
    target_audience tone_of_voice description_length >>
  page_footer.

End App.

(** ** Runs and sessions *)

(** One run of the script from a session dictionary: how it ends, and the
    final state (session, page, requests). *)
Definition run (env : environment) (inp : inputs) (prov : provider)
    (session : gmap string pyval) : outcome unit * state :=
  main env inp prov (State session [] []).

(** One user interaction: what the script meets when it is re-run. *)
Record interaction : Type := Interaction {
  i_env : environment;
  i_inputs : inputs;
  i_provider : provider
}.

Definition run_interaction (session : gmap string pyval) (i : interaction)
  : state :=
  snd (run (i_env i) (i_inputs i) (i_provider i) session).

(** The session dictionary outlives the run, however the run ends. *)
Definition session_after (session : gmap string pyval)
    (history : list interaction) : gmap string pyval :=
  fold_left (fun sess i => session_state (run_interaction sess i))
    history session.

(** All calls of [create] made over a history of interactions. *)
Fixpoint requests_of (session : gmap string pyval)
    (history : list interaction) : list request :=
  match history with
  | [] => []
  | i :: rest =>
      let s := run_interaction session i in
      sent s ++ requests_of (session_state s) rest
  end.

(** ** Notions used to state the properties *)

(** The configuration section lets the script through: the key is set and
    not empty, and the client is built. *)
Definition configured (env : environment) : bool :=
  truthy (os_getenv env "GROQ_API_KEY")
  && match groq_init_failure env with None => true | Some _ => false end.

(** The request [generate_content] issues for a prompt. *)
Definition completion_request (key : pyval) (prompt : pystr) : request :=
  Request key [system_message; Message (lit "user") prompt] GROQ_MODEL
    (8 # 10) 2048.

(** The request of the generate and regenerate actions of a run: built
    from the widget values of that run. *)
Definition generation_request (env : environment) (inp : inputs) : request :=
  completion_request (os_getenv env "GROQ_API_KEY")
    (build_prompt (in_product_name inp) (in_product_category inp)
       (in_key_features inp) (in_target_audience inp) (in_tone_of_voice inp)
       (in_description_length inp) 2).

(** What [generate_content] gets out of the provider's answer. *)
Definition generation (prov : provider) (req : request) : exn + pyval :=
  match prov req with
  | inl e => inl e
  | inr [] => inl (Exn "IndexError" (lit "list index out of range"))
  | inr (v :: _) => inr v
  end.

(** The section of line 156 is shown: a result is stored and is truthy. *)
Definition result_shown (session : gmap string pyval) : bool :=
  match session !! "generated_output" with
  | Some v => truthy v
  | None => false
  end.

(** The product name submitted by an interaction, when it is a generate
    action that succeeds: the call of [create] returns a first choice,
    which the handler then stores with this name. *)
Definition generated_name (i : interaction) : option pystr :=
  if configured (i_env i)
     && bool_decide (clicked (i_inputs i) = Some GenerateButton)
     && nonempty (in_product_name (i_inputs i))
     && nonempty (in_key_features (i_inputs i))
  then
    match generation (i_provider i)
            (generation_request (i_env i) (i_inputs i)) with
    | inr _ => Some (in_product_name (i_inputs i))
    | inl _ => None
    end
  else None.

(** The product name of the most recent successful generate action. *)
Fixpoint last_generated_name (history : list interaction) : option pystr :=
  match history with
  | [] => None
  | i :: rest =>
      match last_generated_name rest with
      | Some name => Some name
      | None => generated_name i
      end
  end.

(** The elements of the page down to the divider under the form. *)
Definition form_elements (inp : inputs) : list element :=
  [PageConfig (lit "Product Marketer AI Assistant") [0x1F4C8%N] (lit "wide");
   Title ([0x1F4C8%N] ++ lit " Product Marketer AI Assistant");
   Markdown (PStr (lit "
Craft compelling product descriptions and social media hashtags instantly with the incredibly fast **Groq API**
powered by the **" ++ GROQ_MODEL ++ lit "** model. Perfect for product marketers!
"));
   Divider;
   Header ([0x270D%N; 0xFE0F%N] ++ lit " Product Details Input");
   TextInput (lit "Product Name") (in_product_name inp);
   TextInput (lit "Product Category") (in_product_category inp);
   TextArea (lit "Key Features (one per line)") (in_key_features inp);
   TextInput (lit "Target Audience") (in_target_audience inp);
   Selectbox (lit "Tone of Voice") tone_options (in_tone_of_voice inp);
   Radio (lit "Description Length") length_options
     (in_description_length inp);
   Button GENERATE_LABEL;
   Divider].

Definition footer_elements : list element :=
  [Markdown (PStr (lit "---"));
   Markdown (PStr (lit "Made with " ++ [0x2764%N; 0xFE0F%N] ++
                   lit " by an AI Enthusiast " ++ [0x1F680%N]));
   Markdown (PStr (lit "For internal use for product marketers use it to generate the content and then post it in social media. Always double-check generated content."))].

Definition is_download_button (el : element) : bool :=
  match el with DownloadButton _ _ _ _ => true | _ => false end.


(** *** The effect of each section on the state

    Every section of the script ends normally except the download column;
    these functions give the state each leaves, case by case. *)

(** What follows the subheader of a result [v]: the text and the success
    message, or the error of the [except] branch when [st.markdown]
    raises. *)
Definition rendering (v : pyval) (success failed hint : pystr)
  : list element :=
  match markdown_failure v with
  | None => [Markdown v; Success success]
  | Some e => [Error (failed ++ exn_msg e); Warning hint]
  end.

(** Lines 135-153, for the widget values [inp] and the client key. *)
Definition after_generate (prov : provider) (key : pyval) (inp : inputs)
    (s : state) : state :=
  if bool_decide (clicked inp = Some GenerateButton) then
    if nonempty (in_product_name inp) && nonempty (in_key_features inp) then
      let req :=
        completion_request key
          (build_prompt (in_product_name inp) (in_product_category inp)
             (in_key_features inp) (in_target_audience inp)
             (in_tone_of_voice inp) (in_description_length inp) 2) in
      match generation prov req with
      | inr v =>
          State
            (<["product_name_for_download" := PStr (in_product_name inp)]>
               (<["generated_output" := v]> (session_state s)))
            (page s ++
               Spinner (lit "Creating content with " ++ GROQ_MODEL ++ lit "...")
               :: Subheader ([0x2728%N] ++ lit " Your Generated Content")
               :: rendering v (lit "Content generated successfully!")
                    API_CALL_FAILED API_CALL_HINT)
            (sent s ++ [req])
      | inl e =>
          State (session_state s)
            (page s ++
               [Spinner (lit "Creating content with " ++ GROQ_MODEL ++ lit "...");
                Error (API_CALL_FAILED ++ exn_msg e);
                Warning API_CALL_HINT])
            (sent s ++ [req])
      end
    else State (session_state s) (page s ++ [Warning FIELDS_MISSING]) (sent s)
  else s.

(** Lines 160-172. *)
Definition after_regenerate (prov : provider) (key : pyval) (inp : inputs)
    (s : state) : state :=
  if bool_decide (clicked inp = Some RegenerateButton) then
    let req :=
      completion_request key
        (build_prompt (in_product_name inp) (in_product_category inp)
           (in_key_features inp) (in_target_audience inp)
           (in_tone_of_voice inp) (in_description_length inp) 2) in
    match generation prov req with
    | inr v =>
        State (<["generated_output" := v]> (session_state s))
          (page s ++
             Button REGENERATE_LABEL
             :: Spinner (lit "Regenerating content with " ++ GROQ_MODEL ++ lit "...")
             :: Subheader ([0x2728%N] ++ lit " Your Regenerated Content")
             :: rendering v (lit "Content regenerated successfully!")
                  REGENERATION_FAILED REGENERATION_HINT)
          (sent s ++ [req])
    | inl e =>
        State (session_state s)
          (page s ++
             [Button REGENERATE_LABEL;
              Spinner (lit "Regenerating content with " ++ GROQ_MODEL ++ lit "...");
              Error (REGENERATION_FAILED ++ exn_msg e);
              Warning REGENERATION_HINT])
          (sent s ++ [req])
    end
  else State (session_state s) (page s ++ [Button REGENERATE_LABEL]) (sent s).

(** The file the download column offers for a session, when it offers
    one: bytes, name and media type. *)
Definition download_offer (session : gmap string pyval)
  : option (list byte * pystr * pystr) :=
  match session !! "generated_output" with
  | Some (PStr r) =>
      match utf8_encode r with
      | Some data =>
          Some (data,
                py_str (default (PStr (lit "product"))
                          (session !! "product_name_for_download"))
                ++ DOWNLOAD_SUFFIX,
                lit "text/plain")
      | None => None
      end
  | _ => None
  end.

(** *** Notions for the further properties *)

(** The exception that ends the download column when the session gives no
    file to offer. *)
Definition download_error (session : gmap string pyval) : exn :=
  match session !! "generated_output" with
  | Some (PStr r) => Exn "UnicodeEncodeError" (unicode_encode_message r)
  | Some PNone =>
      Exn "AttributeError"
        (lit "'NoneType' object has no attribute 'encode'")
  | None => Exn "KeyError" (lit "generated_output")
  end.

(** The interaction is a click on generate or on regenerate. *)
Definition is_action (i : interaction) : bool :=
  bool_decide (clicked (i_inputs i) = Some GenerateButton)
  || bool_decide (clicked (i_inputs i) = Some RegenerateButton).

(** The two keys the script writes. *)
Definition SESSION_KEYS : gset string :=
  {["generated_output"; "product_name_for_download"]}.

(** * Properties *)

(** ** Strings *)

Lemma is_substring_here (pre a post : pystr) :
  is_substring a (pre ++ a ++ post).
Proof. by exists pre, post. Qed.

Lemma is_substring_app_l (a b c : pystr) :
  is_substring a b -> is_substring a (b ++ c).
Proof.
  intros (pre & post & ->). exists pre, (post ++ c).
  by rewrite <- !app_assoc.
Qed.

Lemma is_substring_app_r (a b c : pystr) :
  is_substring a c -> is_substring a (b ++ c).
Proof.
  intros (pre & post & ->). exists (b ++ pre), post.
  by rewrite <- !app_assoc.
Qed.

Lemma is_substring_refl (a : pystr) : is_substring a a.
Proof. exists [], []. by rewrite app_nil_r. Qed.

(** Finds a named field in a concatenation of literals and fields. *)
Ltac find_field :=
  cbv zeta; rewrite <- ?app_assoc;
  repeat lazymatch goal with
  | |- is_substring ?a ?a => apply is_substring_refl
  | |- is_substring ?a (?a ++ _) =>
      apply is_substring_app_l, is_substring_refl
  | |- is_substring ?a (_ ++ _) => apply is_substring_app_r
  end.

(** ** The prompt builder *)

(** Whatever count is passed, the prompt ends in the same output format,
    which spells out two description blocks and two hashtag lists: the
    count only reaches the request sentence. *)
Lemma build_prompt_format_fixed name cat feats aud tone len (n : Z) :
  build_prompt name cat feats aud tone len n
    = prompt_brief name cat feats aud tone (actual_description_length len) n
      ++ prompt_output_format /\
  occurrences (lit "**Description ") prompt_output_format = 2 /\
  occurrences (lit "**Hashtags ") prompt_output_format = 2.
Proof. split; [reflexivity | by vm_compute]. Qed.

(** The example of the specification, count 2 and the short length. *)
Example test_mug_two_variants :
  let p := build_prompt (lit "Test Mug") (lit "Kitchen")
             (lit "- Keeps drinks hot") (lit "Office workers")
             (lit "Friendly") (lit "Short (1 paragraph)") 2 in
  contains (lit "1 paragraph") p = true /\
  contains (lit "Please generate 2 distinct product description(s)") p = true /\
  occurrences (lit "**Description ") p = 2 /\
  occurrences (lit "**Hashtags ") p = 2 /\
  length p = 1178.
Proof. vm_compute. repeat split. Qed.

(** C1 (fails on the code). With a count other than 2 the prompt asks for
    that many descriptions in its request sentence, but the output format
    it spells out still has exactly two labelled description/hashtag
    blocks: here count 3, with "Description 3" nowhere in the prompt. *)
Theorem three_variants_format_has_two_blocks :
  let p := build_prompt (lit "Test Mug") (lit "Kitchen")
             (lit "- Keeps drinks hot") (lit "Office workers")
             (lit "Friendly") (lit "Short (1 paragraph)") 3 in
  contains (lit "Please generate 3 distinct product description(s)") p = true /\
  occurrences (lit "**Description ") p = 2 /\
  occurrences (lit "**Hashtags ") p = 2 /\
  contains (lit "**Description 3:**") p = false /\
  contains (lit "**Hashtags 3:**") p = false.
Proof. vm_compute. repeat split. Qed.

(** C2. The three length selections map to their paragraph phrases and
    any other value to "2 paragraphs"; and the prompt carries the phrase
    of the selection in its two places, after "Desired Description
    Length:" and in the sentence "Each description should be approximately
    ... long.", the text around these places being the same for every
    selection. *)
Theorem length_selection_phrase :
  actual_description_length (lit "Short (1 paragraph)") = lit "1 paragraph" /\
  actual_description_length (lit "Medium (2 paragraphs)") = lit "2 paragraphs" /\
  actual_description_length (lit "Long (3 paragraphs)") = lit "3 paragraphs" /\
  (forall v : pystr,
      v <> lit "Short (1 paragraph)" ->
      v <> lit "Medium (2 paragraphs)" ->
      v <> lit "Long (3 paragraphs)" ->
      actual_description_length v = lit "2 paragraphs") /\
  (forall name cat feats aud tone n,
      exists before between after : pystr,
        forall v : pystr,
          build_prompt name cat feats aud tone v n =
            before
            ++ lit "- **Desired Description Length:** "
            ++ actual_description_length v
            ++ between
            ++ lit "Each description should be approximately "
            ++ actual_description_length v
            ++ lit " long."
            ++ after).
Proof.
  split; [by vm_compute|]. split; [by vm_compute|]. split; [by vm_compute|].
  split.
  - intros v Hs Hm Hl. unfold actual_description_length, paragraph_map.
    rewrite !lookup_insert_ne by done. by rewrite lookup_empty.
  - intros name cat feats aud tone n.
    (* the literals of the template around the two places *)
    let t := eval cbv beta zeta delta [build_prompt prompt_brief] in
      (build_prompt name cat feats aud tone [] n) in
    lazymatch t with
    | (lit ?A1 ++ name ++ lit ?A2 ++ cat ++ lit ?A3 ++ feats ++ lit ?A4
       ++ aud ++ lit ?A5 ++ tone ++ lit ?La ++ _ ++ lit ?Lm
       ++ str_of_int n ++ lit ?Lb ++ _ ++ lit ?Lc) ++ prompt_output_format =>
        pose (pa := firstn (length (lit La) - 34) (lit La));
        pose (pb := firstn (length (lit Lb) - 41) (lit Lb));
        pose (pc := skipn 6 (lit Lc));
        assert (Ea : lit La = pa ++ lit "- **Desired Description Length:** ")
          by (subst pa; vm_compute; reflexivity);
        assert (Eb : lit Lb
                     = pb ++ lit "Each description should be approximately ")
          by (subst pb; vm_compute; reflexivity);
        assert (Ec : lit Lc = lit " long." ++ pc)
          by (subst pc; vm_compute; reflexivity);
        exists (lit A1 ++ name ++ lit A2 ++ cat ++ lit A3 ++ feats ++ lit A4
                ++ aud ++ lit A5 ++ tone ++ pa),
               (lit Lm ++ str_of_int n ++ pb),
               (pc ++ prompt_output_format);
        intros v; unfold build_prompt, prompt_brief; cbv zeta;
        rewrite Ea, Eb, Ec; rewrite <- ?app_assoc; reflexivity
    end.
Qed.

Lemma length_selection_phrase_witness :
  actual_description_length (lit "Extra long") = lit "2 paragraphs".
Proof.
  apply (proj1 (proj2 (proj2 (proj2 length_selection_phrase))));
    intros H; vm_compute in H; discriminate H.
Defined.

(** C7. The product name, the category, the feature text and the audience
    are each a contiguous, unmodified part of the built prompt. *)
Theorem prompt_contains_brief_fields name cat feats aud tone len n :
  let p := build_prompt name cat feats aud tone len n in
  is_substring name p /\ is_substring cat p /\
  is_substring feats p /\ is_substring aud p.
Proof.
  cbv zeta. unfold build_prompt, prompt_brief.
  repeat split; find_field.
Qed.

(** ** The script, section by section *)

Ltac state_eq :=
  cbn [session_state page sent]; rewrite <- ?app_assoc; reflexivity.

Section Sections.

Variable env : environment.
Variable inp : inputs.
Variable prov : provider.

Lemma configuration_key_missing (s : state) :
  truthy (os_getenv env "GROQ_API_KEY") = false ->
  configuration env s =
    (Stop, State (session_state s) (page s ++ [Error KEY_MISSING]) (sent s)).
Proof. intros H. unfold configuration. rewrite H. reflexivity. Qed.

Lemma configuration_client_fails (s : state) (e : exn) :
  truthy (os_getenv env "GROQ_API_KEY") = true ->
  groq_init_failure env = Some e ->
  configuration env s =
    (Stop,
     State (session_state s) (page s ++ [Error (CLIENT_FAILED ++ exn_msg e)])
       (sent s)).
Proof.
  intros Hk He. unfold configuration, Groq. rewrite Hk, He. reflexivity.
Qed.

Lemma configuration_ok (s : state) :
  configured env = true ->
  configuration env s = (Return (Client (os_getenv env "GROQ_API_KEY")), s).
Proof.
  unfold configured. intros [Hk Hc]%andb_prop.
  unfold configuration, Groq. rewrite Hk.
  destruct (groq_init_failure env); [discriminate|]. by destruct s.
Qed.

Lemma main_configured (session : gmap string pyval) :
  configured env = true ->
  main env inp prov (State session [] []) =
    (llm_call_and_output prov (Client (os_getenv env "GROQ_API_KEY"))
       (in_product_name inp) (in_product_category inp) (in_key_features inp)
       (in_target_audience inp) (in_tone_of_voice inp)
       (in_description_length inp)
       (bool_decide (clicked inp = Some GenerateButton)) >>
     regenerate_and_download inp prov
       (Client (os_getenv env "GROQ_API_KEY"))
       (in_product_name inp) (in_product_category inp) (in_key_features inp)
       (in_target_audience inp) (in_tone_of_voice inp)
       (in_description_length inp) >>
     page_footer)
      (State session (form_elements inp) []).
Proof.
  intros H. unfold main, bind at 1. rewrite configuration_ok by done.
  reflexivity.
Qed.

(** [generate_content] checks nothing: it sends the request for the prompt
    it builds, and hands back the first choice or the failure. *)
Lemma generate_content_eq (client : groq_client)
    (name cat feats aud tone len : pystr) (n : Z) (s : state) :
  let req :=
    completion_request (client_key client)
      (build_prompt name cat feats aud tone len n) in
  generate_content prov client name cat feats aud tone len n s =
    (match generation prov req with
     | inl e => Raise e
     | inr v => Return v
     end,
     State (session_state s) (page s) (sent s ++ [req])).
Proof.
  cbv zeta. unfold generate_content, generation, bind,
    chat_completions_create, completion_request. cbn [client_key].
  destruct (prov _) as [e|[|v c]]; reflexivity.
Qed.

Lemma llm_call_and_output_eq (key : pyval) (s : state) :
  llm_call_and_output prov (Client key)
    (in_product_name inp) (in_product_category inp) (in_key_features inp)
    (in_target_audience inp) (in_tone_of_voice inp)
    (in_description_length inp)
    (bool_decide (clicked inp = Some GenerateButton)) s
  = (Return tt, after_generate prov key inp s).
Proof.
  unfold llm_call_and_output, after_generate, when.
  destruct (bool_decide _); [|reflexivity].
  destruct (nonempty (in_product_name inp)),
    (nonempty (in_key_features inp)); cbn [negb orb andb];
    try (unfold st_warning, emit; reflexivity).
  unfold with_spinner, bind at 1. cbn [emit].
  unfold try_except, bind at 1. rewrite generate_content_eq.
  cbn [client_key session_state page sent].
  destruct (generation _ _) as [e|v].
  - unfold bind, st_error, st_warning, emit. state_eq.
  - unfold bind, session_setitem, st_subheader, st_markdown, st_success,
      st_error, st_warning, emit, raise, rendering.
    destruct (markdown_failure v); state_eq.
Qed.

Lemma regenerate_column_eq (key : pyval) (s : state) :
  regenerate_column inp prov (Client key)
    (in_product_name inp) (in_product_category inp) (in_key_features inp)
    (in_target_audience inp) (in_tone_of_voice inp)
    (in_description_length inp) s
  = (Return tt, after_regenerate prov key inp s).
Proof.
  unfold regenerate_column, after_regenerate, when, st_button.
  unfold bind at 1 2. cbn [emit ret].
  destruct (bool_decide _); [|reflexivity].
  unfold with_spinner, bind at 1. cbn [emit].
  unfold try_except, bind at 1. rewrite generate_content_eq.
  cbn [client_key session_state page sent].
  destruct (generation _ _) as [e|v].
  - unfold bind, st_error, st_warning, emit. state_eq.
  - unfold bind, session_setitem, st_subheader, st_markdown, st_success,
      st_error, st_warning, emit, raise, rendering.
    destruct (markdown_failure v); state_eq.
Qed.

(** The download column changes neither the session nor the requests; it
    adds the button exactly when [download_offer] gives a file. *)
Lemma download_column_eq (s : state) :
  match download_offer (session_state s) with
  | Some (data, file_name, mime) =>
      download_column inp s =
        (Return tt,
         State (session_state s)
           (page s ++ [DownloadButton DOWNLOAD_LABEL data file_name mime])
           (sent s))
  | None => exists e : exn, download_column inp s = (Raise e, s)
  end.
Proof.
  unfold download_offer, download_column, session_get, session_getitem,
    bind, ret, st_download_button, emit.
  cbn beta iota.
  destruct (session_state s !! "generated_output") as [[|r]|].
  - eexists. reflexivity.
  - unfold encode_utf8. destruct (utf8_encode r) as [data|].
    + by destruct s.
    + eexists. reflexivity.
  - eexists. reflexivity.
Qed.

Lemma page_footer_eq (s : state) :
  page_footer s =
    (Return tt, State (session_state s) (page s ++ footer_elements) (sent s)).
Proof.
  unfold page_footer, bind, st_markdown.
  repeat match goal with
    | |- context [markdown_failure (PStr ?t)] =>
        let H := fresh in
        assert (H : markdown_failure (PStr t) = None)
          by (vm_compute; reflexivity);
        rewrite H; clear H
    end.
  unfold emit, footer_elements. state_eq.
Qed.

Lemma shown_check_eq {A} (k : bool -> script A) (s : state) :
  (let* present := session_contains "generated_output" in
   let* shown :=
     if present then
       let* v := session_getitem "generated_output" in ret (truthy v)
     else ret false in
   k shown) s
  = k (result_shown (session_state s)) s.
Proof.
  unfold bind at 1, session_contains, result_shown.
  destruct (session_state s !! "generated_output") as [v|] eqn:H.
  - rewrite bool_decide_eq_true_2 by eauto.
    unfold bind, session_getitem, ret. by rewrite H.
  - rewrite bool_decide_eq_false_2 by (by intros [? ?]). reflexivity.
Qed.

Lemma regenerate_and_download_hidden (key : pyval) (s : state) :
  result_shown (session_state s) = false ->
  regenerate_and_download inp prov (Client key)
    (in_product_name inp) (in_product_category inp) (in_key_features inp)
    (in_target_audience inp) (in_tone_of_voice inp)
    (in_description_length inp) s
  = (Return tt, s).
Proof.
  intros H. unfold regenerate_and_download.
  rewrite (shown_check_eq (fun shown => when shown _)), H. reflexivity.
Qed.

Lemma regenerate_and_download_shown (key : pyval) (s : state) :
  result_shown (session_state s) = true ->
  regenerate_and_download inp prov (Client key)
    (in_product_name inp) (in_product_category inp) (in_key_features inp)
    (in_target_audience inp) (in_tone_of_voice inp)
    (in_description_length inp) s
  = download_column inp
      (after_regenerate prov key inp
         (State (session_state s) (page s ++ [Divider]) (sent s))).
Proof.
  intros H. unfold regenerate_and_download.
  rewrite (shown_check_eq (fun shown => when shown _)), H.
  unfold when, bind at 1, st_divider. cbn [emit].
  unfold bind at 1. by rewrite regenerate_column_eq.
Qed.

(** The state a run ends in, when the configuration section lets it
    through. *)
Lemma run_configured (session : gmap string pyval) :
  configured env = true ->
  let key := os_getenv env "GROQ_API_KEY" in
  let s1 := after_generate prov key inp
              (State session (form_elements inp) []) in
  let s2 := after_regenerate prov key inp
              (State (session_state s1) (page s1 ++ [Divider]) (sent s1)) in
  snd (run env inp prov session) =
    if result_shown (session_state s1) then
      match download_offer (session_state s2) with
      | Some (data, file_name, mime) =>
          State (session_state s2)
            (page s2 ++
               DownloadButton DOWNLOAD_LABEL data file_name mime
               :: footer_elements)
            (sent s2)
      | None => s2
      end
    else State (session_state s1) (page s1 ++ footer_elements) (sent s1).
Proof.
  intros H key s1 s2. unfold run. rewrite main_configured by done.
  unfold bind at 1. rewrite llm_call_and_output_eq. fold key. fold s1.
  unfold bind at 1.
  destruct (result_shown (session_state s1)) eqn:Hshown.
  - rewrite regenerate_and_download_shown by done. fold s2.
    pose proof (download_column_eq s2) as Hd.
    destruct (download_offer (session_state s2)) as [[[data f] m]|].
    + rewrite Hd, page_footer_eq. cbn [snd session_state page sent].
      by rewrite <- app_assoc.
    + destruct Hd as [e ->]. reflexivity.
  - rewrite regenerate_and_download_hidden by done.
    by rewrite page_footer_eq.
Qed.

(** Otherwise the run stops on the configuration error. *)
Lemma run_not_configured (session : gmap string pyval) :
  configured env = false ->
  exists msg : pystr,
    run env inp prov session = (Stop, State session [Error msg] []).
Proof.
  unfold configured, run, main. intros H. unfold bind at 1.
  destruct (truthy (os_getenv env "GROQ_API_KEY")) eqn:Hk.
  - destruct (groq_init_failure env) as [e|] eqn:He; [|discriminate].
    rewrite (configuration_client_fails _ e) by done. by eexists.
  - rewrite configuration_key_missing by done. by eexists.
Qed.

End Sections.

(** ** What a run leaves: session, requests, download buttons *)

Section Runs.

Variable env : environment.
Variable inp : inputs.
Variable prov : provider.


(** The generate section and the regenerate column add no download
    button. *)
Lemma after_generate_downloads (key : pyval) (s : state) (el : element) :
  is_download_button el = true ->
  In el (page (after_generate prov key inp s)) -> In el (page s).
Proof.
  intros Hd. unfold after_generate, rendering.
  repeat case_match; cbn [page]; rewrite ?in_app_iff; cbn [In];
    intuition (subst; discriminate).
Qed.

Lemma after_regenerate_downloads (key : pyval) (s : state) (el : element) :
  is_download_button el = true ->
  In el (page (after_regenerate prov key inp s)) -> In el (page s).
Proof.
  intros Hd. unfold after_regenerate, rendering.
  repeat case_match; cbn [page]; rewrite ?in_app_iff; cbn [In];
    intuition (subst; discriminate).
Qed.

(** Every download button on the page of a run is the offer made for the
    session the run ends with. *)
Lemma run_download_button (session : gmap string pyval) (el : element) :
  is_download_button el = true ->
  In el (page (snd (run env inp prov session))) ->
  exists data file_name mime,
    download_offer (session_state (snd (run env inp prov session)))
      = Some (data, file_name, mime) /\
    el = DownloadButton DOWNLOAD_LABEL data file_name mime.
Proof.
  intros Hd. destruct (configured env) eqn:Hc.
  - rewrite run_configured by done. cbv zeta.
    set (s1 := after_generate _ _ _ _).
    set (s2 := after_regenerate _ _ _ _).
    assert (Hs1 : In el (page s1) -> False).
    { intros H%after_generate_downloads; [|done]. cbn in H.
      unfold form_elements in H. cbn [In] in H.
      intuition (subst; discriminate). }
    assert (Hs2 : In el (page s2) -> False).
    { intros H%after_regenerate_downloads; [|done]. cbn [page] in H.
      apply in_app_iff in H as [H|H]; [done|]. cbn [In] in H.
      intuition (subst; discriminate). }
    destruct (result_shown (session_state s1)).
    + destruct (download_offer (session_state s2)) as [[[data f] m]|] eqn:Ho.
      * cbn [page session_state]. rewrite Ho, in_app_iff. cbn [In].
        unfold footer_elements. cbn [In].
        intros [H|[<-|H]]; [done| by eexists _, _, _ |].
        intuition (subst; discriminate).
      * done.
    + cbn [page]. rewrite in_app_iff. unfold footer_elements. cbn [In].
      intuition (subst; discriminate).
  - destruct (run_not_configured env inp prov session Hc) as [msg ->].
    cbn. intuition (subst; discriminate).
Qed.

(** The session a run leaves, key by key. *)
Lemma run_session (session : gmap string pyval) :
  session_state (snd (run env inp prov session)) =
    if configured env then
      let key := os_getenv env "GROQ_API_KEY" in
      let s1 := after_generate prov key inp
                  (State session (form_elements inp) []) in
      if result_shown (session_state s1) then
        session_state
          (after_regenerate prov key inp
             (State (session_state s1) (page s1 ++ [Divider]) (sent s1)))
      else session_state s1
    else session.
Proof.
  destruct (configured env) eqn:Hc.
  - rewrite run_configured by done. cbv zeta.
    destruct (result_shown _); [|done].
    by destruct (download_offer _) as [[[? ?] ?]|].
  - by destruct (run_not_configured env inp prov session Hc) as [msg ->].
Qed.

End Runs.

Section RunFacts.

Variable env : environment.
Variable inp : inputs.
Variable prov : provider.

Lemma run_sent (session : gmap string pyval) :
  sent (snd (run env inp prov session)) =
    if configured env then
      let key := os_getenv env "GROQ_API_KEY" in
      let s1 := after_generate prov key inp
                  (State session (form_elements inp) []) in
      if result_shown (session_state s1) then
        sent
          (after_regenerate prov key inp
             (State (session_state s1) (page s1 ++ [Divider]) (sent s1)))
      else sent s1
    else [].
Proof.
  destruct (configured env) eqn:Hc.
  - rewrite run_configured by done. cbv zeta.
    destruct (result_shown _); [|done].
    by destruct (download_offer _) as [[[? ?] ?]|].
  - by destruct (run_not_configured env inp prov session Hc) as [msg ->].
Qed.

Lemma after_regenerate_page_incl (key : pyval) (s : state) (el : element) :
  In el (page s) -> In el (page (after_regenerate prov key inp s)).
Proof.
  intros H. unfold after_regenerate.
  repeat case_match; cbn [page]; apply in_app_iff; by left.
Qed.

(** What the generate section wrote stays on the page of the run. *)
Lemma run_page_generate (session : gmap string pyval) (el : element) :
  configured env = true ->
  In el (page (after_generate prov (os_getenv env "GROQ_API_KEY") inp
                 (State session (form_elements inp) []))) ->
  In el (page (snd (run env inp prov session))).
Proof.
  intros Hc H. rewrite run_configured by done. cbv zeta.
  destruct (result_shown _).
  - assert (In el (page (after_regenerate prov (os_getenv env "GROQ_API_KEY")
      inp (State (session_state (after_generate prov
        (os_getenv env "GROQ_API_KEY") inp
        (State session (form_elements inp) [])))
        (page (after_generate prov (os_getenv env "GROQ_API_KEY") inp
           (State session (form_elements inp) [])) ++ [Divider])
        (sent (after_generate prov (os_getenv env "GROQ_API_KEY") inp
           (State session (form_elements inp) []))))))) as H'.
    { apply after_regenerate_page_incl. cbn [page]. apply in_app_iff.
      by left. }
    destruct (download_offer _) as [[[? ?] ?]|]; [|done].
    cbn [page]. apply in_app_iff. by left.
  - cbn [page]. apply in_app_iff. by left.
Qed.

(** So does what the regenerate column wrote, when the section is shown. *)
Lemma run_page_regenerate (session : gmap string pyval) (el : element) :
  configured env = true ->
  let s1 := after_generate prov (os_getenv env "GROQ_API_KEY") inp
              (State session (form_elements inp) []) in
  result_shown (session_state s1) = true ->
  In el (page (after_regenerate prov (os_getenv env "GROQ_API_KEY") inp
                 (State (session_state s1) (page s1 ++ [Divider])
                    (sent s1)))) ->
  In el (page (snd (run env inp prov session))).
Proof.
  intros Hc s1 Hs H. rewrite run_configured by done. cbv zeta.
  fold s1. rewrite Hs.
  destruct (download_offer _) as [[[? ?] ?]|]; [|done].
  cbn [page]. apply in_app_iff. by left.
Qed.

End RunFacts.

(** Rewrites the test of a button against the click of the run. *)
Ltac decide_click H :=
  rewrite ?H;
  rewrite ?bool_decide_eq_true_2 by done;
  rewrite ?bool_decide_eq_false_2 by done.

Lemma nonempty_true (s : pystr) : s <> [] -> nonempty s = true.
Proof. by destruct s. Qed.

Lemma session_after_cons (session : gmap string pyval) (i : interaction)
    (rest : list interaction) :
  session_after session (i :: rest)
  = session_after (session_state (run_interaction session i)) rest.
Proof. reflexivity. Qed.

Lemma session_after_snoc (session : gmap string pyval)
    (history : list interaction) (i : interaction) :
  session_after session (history ++ [i])
  = session_state (run_interaction (session_after session history) i).
Proof. unfold session_after. by rewrite fold_left_app. Qed.

Lemma session_after_app (session : gmap string pyval)
    (h1 h2 : list interaction) :
  session_after session (h1 ++ h2)
  = session_after (session_after session h1) h2.
Proof. unfold session_after. by rewrite fold_left_app. Qed.

(** ** The credential check *)

(** C5. When GROQ_API_KEY is absent, every run stops on the configuration
    error: the page holds that error and nothing else (no widget), no
    request is sent, and the session is left as it was, over any number of
    interactions. *)
Theorem missing_key_halts (session : gmap string pyval)
    (history : list interaction) :
  Forall (fun i => environ (i_env i) !! "GROQ_API_KEY" = None) history ->
  Forall (fun i =>
            run (i_env i) (i_inputs i) (i_provider i) session
            = (Stop, State session [Error KEY_MISSING] []))
    history /\
  requests_of session history = [] /\
  session_after session history = session.
Proof.
  assert (Hrun : forall i,
    environ (i_env i) !! "GROQ_API_KEY" = None ->
    run (i_env i) (i_inputs i) (i_provider i) session
    = (Stop, State session [Error KEY_MISSING] [])).
  { intros i Hi. unfold run, main, bind at 1.
    rewrite configuration_key_missing; [done|].
    unfold os_getenv. by rewrite Hi. }
  induction 1 as [|i rest Hi Hrest IH].
  - done.
  - destruct IH as (IH1 & IH2 & IH3).
    split; [constructor; auto|].
    rewrite session_after_cons. cbn [requests_of].
    unfold run_interaction. rewrite (Hrun i Hi). cbn [snd sent session_state].
    by rewrite IH2, IH3.
Qed.

Lemma missing_key_halts_witness :
  let i1 := Interaction (Environment ∅ None) initial_inputs
              (fun _ => inr [PStr (lit "text")]) in
  let i2 := Interaction (Environment ∅ None)
              (Inputs (lit "Mug") (lit "Kitchen") (lit "- hot") (lit "All")
                 (lit "Friendly") (lit "Short (1 paragraph)")
                 (Some GenerateButton))
              (fun _ => inr [PStr (lit "text")]) in
  requests_of ∅ [i1; i2] = [].
Proof.
  intros i1 i2.
  apply (missing_key_halts ∅ [i1; i2]).
  repeat constructor.
Defined.

(** ** The generate and regenerate actions *)

(** C9. With an empty product name or empty key features, a click on
    generate shows the warning, sends no request and leaves the session as
    it was; [generate_content] itself checks no field: for any values,
    empty ones included, it sends the request for the prompt built from
    them and returns what the provider gives. *)
Theorem empty_fields_rejected_by_caller :
  (forall env inp prov (session : gmap string pyval),
      configured env = true ->
      clicked inp = Some GenerateButton ->
      in_product_name inp = [] \/ in_key_features inp = [] ->
      let s := snd (run env inp prov session) in
      In (Warning FIELDS_MISSING) (page s) /\
      sent s = [] /\
      session_state s = session) /\
  (forall prov client name cat feats aud tone len n (s : state),
      let req := completion_request (client_key client)
                   (build_prompt name cat feats aud tone len n) in
      generate_content prov client name cat feats aud tone len n s =
        (match prov req with
         | inl e => Raise e
         | inr [] => Raise (Exn "IndexError" (lit "list index out of range"))
         | inr (v :: _) => Return v
         end,
         State (session_state s) (page s) (sent s ++ [req]))).
Proof.
  split.
  - intros env inp prov session Hc Hclick Hempty s.
    assert (Hfields :
      nonempty (in_product_name inp) && nonempty (in_key_features inp)
      = false).
    { destruct Hempty as [-> | ->]; [done|]. apply andb_false_r. }
    assert (Hs1 :
      after_generate prov (os_getenv env "GROQ_API_KEY") inp
        (State session (form_elements inp) [])
      = State session (form_elements inp ++ [Warning FIELDS_MISSING]) []).
    { unfold after_generate. decide_click Hclick. by rewrite Hfields. }
    subst s. split; [|split].
    + apply run_page_generate; [done|]. rewrite Hs1. cbn [page].
      apply in_app_iff. right. by left.
    + rewrite run_sent, Hc. cbv zeta. rewrite Hs1. cbn [session_state sent].
      unfold after_regenerate. decide_click Hclick. by destruct (result_shown _).
    + rewrite run_session, Hc. cbv zeta. rewrite Hs1. cbn [session_state].
      unfold after_regenerate. decide_click Hclick. by destruct (result_shown _).
  - intros. subst req. rewrite generate_content_eq. unfold generation.
    by destruct (prov _) as [e|[|v c]].
Qed.

Lemma empty_fields_rejected_by_caller_witness :
  let env := Environment (<["GROQ_API_KEY" := lit "gsk"]> ∅) None in
  let inp := Inputs [] (lit "Kitchen") (lit "- Keeps drinks hot")
               (lit "Office workers") (lit "Friendly")
               (lit "Short (1 paragraph)") (Some GenerateButton) in
  sent (snd (run env inp (fun _ => inr [PStr (lit "text")]) ∅)) = [].
Proof.
  intros env inp.
  apply (proj1 empty_fields_rejected_by_caller env inp
           (fun _ => inr [PStr (lit "text")]) ∅);
    [reflexivity | reflexivity | left; reflexivity].
Defined.



(** The request of a regenerate action is built from the widget values of
    the run in which the button is clicked; the session is not read. *)
Lemma regenerate_request_from_widgets env inp prov
    (session : gmap string pyval) :
  configured env = true ->
  clicked inp = Some RegenerateButton ->
  result_shown session = true ->
  sent (snd (run env inp prov session)) = [generation_request env inp].
Proof.
  intros Hc Hclick Hshown. rewrite run_sent, Hc. cbv zeta.
  unfold after_generate. decide_click Hclick. cbn [session_state page sent].
  rewrite Hshown. unfold after_regenerate. decide_click Hclick.
  by destruct (generation _ _).
Qed.

(** C3 (fails on the code). Generate is submitted for "Mug"; the name field
    is then edited to "Lamp" and regenerate is clicked. The request of the
    regenerate run is the one for the edited fields, not the one of the
    submitted generate action, while the stored download name is still
    "Mug". The new result does go to the same slot. *)
Theorem regenerate_sends_edited_fields :
  let env := Environment (<["GROQ_API_KEY" := lit "gsk"]> ∅) None in
  let prov : provider := fun _ => inr [PStr (lit "copy")] in
  let submitted := Inputs (lit "Mug") (lit "Kitchen")
                     (lit "- Keeps drinks hot") (lit "Office workers")
                     (lit "Friendly") (lit "Short (1 paragraph)")
                     (Some GenerateButton) in
  let edited := Inputs (lit "Lamp") (lit "Kitchen")
                  (lit "- Keeps drinks hot") (lit "Office workers")
                  (lit "Friendly") (lit "Short (1 paragraph)")
                  (Some RegenerateButton) in
  let s1 := run_interaction ∅ (Interaction env submitted prov) in
  let s2 := run_interaction (session_state s1)
              (Interaction env edited prov) in
  sent s1 = [generation_request env submitted] /\
  sent s2 = [generation_request env edited] /\
  generation_request env edited <> generation_request env submitted /\
  session_state s2 !! "product_name_for_download" = Some (PStr (lit "Mug")) /\
  session_state s2 !! "generated_output" = Some (PStr (lit "copy")).
Proof.
  cbv zeta. repeat split; try (vm_compute; reflexivity).
  intros H. vm_compute in H. discriminate H.
Qed.

(** ** The UTF-8 codec *)

Module Utf8.

Lemma check_range_spec (P : N -> bool) (d : nat) (lo : N) :
  check_range P d lo = true ->
  forall k : N, (lo <= k < lo + 2 ^ N.of_nat d)%N -> P k = true.
Proof.
  revert lo. induction d as [|d IH]; intros lo H k Hk.
  - cbn in *. replace k with lo by lia. exact H.
  - cbn [check_range] in H. apply andb_prop in H as [Hl Hr].
    rewrite Nat2N.inj_succ, N.pow_succ_r' in Hk.
    destruct (N.lt_ge_cases k (lo + 2 ^ N.of_nat d)) as [Hlt|Hge].
    + apply (IH lo Hl). lia.
    + apply (IH _ Hr). lia.
Qed.

(** Splitting a number at bit [k] and putting it back. *)
Lemma split_at (x k : N) :
  N.lor (N.shiftl (N.shiftr x k) k) (N.land x (N.ones k)) = x.
Proof. rewrite <- N.ldiff_ones_r. apply N.lor_ldiff_and. Qed.

Lemma split_6 (x : N) :
  N.lor (N.shiftl (N.shiftr x 6) 6) (N.land x 0x3f) = x.
Proof. exact (split_at x 6). Qed.

Lemma low6_lt (x : N) : (N.land x 0x3f < 64)%N.
Proof.
  change 0x3f%N with (N.ones 6). rewrite N.land_ones.
  by apply N.mod_lt.
Qed.

Lemma shiftr_lt (x n q : N) : (x < q * 2 ^ n)%N -> (N.shiftr x n < q)%N.
Proof.
  intros H. rewrite N.shiftr_div_pow2.
  apply N.Div0.div_lt_upper_bound. lia.
Qed.

Lemma ascii_byte (ch : N) : (ch < 0x80)%N -> Byte.to_N (byte_of_N ch) = ch.
Proof.
  intros H. apply N.eqb_eq.
  apply (check_range_spec ascii_byte_ok 7 0); [by vm_compute|].
  change (2 ^ N.of_nat 7)%N with 128%N. lia.
Qed.

Lemma continuation_byte (x : N) :
  (x < 64)%N -> continuation (byte_of_N (N.lor 0x80 x)) = Some x.
Proof.
  intros H.
  assert (Hok : continuation_ok x = true).
  { apply (check_range_spec continuation_ok 6 0); [by vm_compute|].
    change (2 ^ N.of_nat 6)%N with 64%N. lia. }
  unfold continuation_ok in Hok.
  destruct (continuation _) as [y|]; [|discriminate].
  by apply N.eqb_eq in Hok as ->.
Qed.

Lemma lead2_byte (h : N) : (h < 32)%N -> lead2_ok h = true.
Proof.
  intros H. apply (check_range_spec lead2_ok 5 0); [by vm_compute|].
  change (2 ^ N.of_nat 5)%N with 32%N. lia.
Qed.

Lemma lead3_byte (h : N) : (h < 16)%N -> lead3_ok h = true.
Proof.
  intros H. apply (check_range_spec lead3_ok 4 0); [by vm_compute|].
  change (2 ^ N.of_nat 4)%N with 16%N. lia.
Qed.

Lemma lead4_byte (h : N) : (h < 8)%N -> lead4_ok h = true.
Proof.
  intros H. apply (check_range_spec lead4_ok 3 0); [by vm_compute|].
  change (2 ^ N.of_nat 3)%N with 8%N. lia.
Qed.

(** Three and four fields put back together. *)
Lemma join_12 (x : N) :
  N.lor (N.shiftl (N.shiftr x 12) 12)
    (N.lor (N.shiftl (N.land (N.shiftr x 6) 0x3f) 6) (N.land x 0x3f)) = x.
Proof.
  rewrite N.lor_assoc.
  replace (N.shiftl (N.shiftr x 12) 12)
    with (N.shiftl (N.shiftl (N.shiftr (N.shiftr x 6) 6) 6) 6).
  - rewrite <- N.shiftl_lor, split_6. apply split_6.
  - rewrite N.shiftl_shiftl, N.shiftr_shiftr. reflexivity.
Qed.

Lemma join_18 (x : N) :
  N.lor (N.shiftl (N.shiftr x 18) 18)
    (N.lor (N.shiftl (N.land (N.shiftr x 12) 0x3f) 12)
       (N.lor (N.shiftl (N.land (N.shiftr x 6) 0x3f) 6) (N.land x 0x3f)))
  = x.
Proof.
  rewrite N.lor_assoc.
  replace (N.shiftl (N.shiftr x 18) 18)
    with (N.shiftl (N.shiftl (N.shiftr (N.shiftr x 12) 6) 6) 12).
  - rewrite <- N.shiftl_lor, split_6. apply join_12.
  - rewrite N.shiftl_shiftl, N.shiftr_shiftr. reflexivity.
Qed.

(** Decoding the bytes of one code point gives it back, whatever
    follows. *)
Lemma decode_encode_char (ch : N) (bs rest : list byte) :
  utf8_encode_char ch = Some bs ->
  utf8_decode_char (bs ++ rest) = Some (ch, rest).
Proof.
  unfold utf8_encode_char.
  destruct (ch <? 0x80)%N eqn:H1.
  { intros [= <-]. apply N.ltb_lt in H1.
    unfold utf8_decode_char. cbn [app]. cbv zeta.
    rewrite (ascii_byte ch H1).
    apply N.ltb_lt in H1. by rewrite H1. }
  apply N.ltb_ge in H1.
  destruct (ch <? 0x800)%N eqn:H2.
  { intros [= <-]. apply N.ltb_lt in H2.
    assert (Hh : (N.shiftr ch 6 < 32)%N).
    { apply shiftr_lt. change (32 * 2 ^ 6)%N with 0x800%N. lia. }
    pose proof (lead2_byte _ Hh) as L. unfold lead2_ok in L. cbv zeta in L.
    apply andb_prop in L as [[L1%negb_true_iff L2]%andb_prop L3%N.eqb_eq].
    unfold utf8_decode_char. cbn [app]. cbv zeta.
    rewrite L1, L2, L3, (continuation_byte _ (low6_lt ch)), split_6.
    apply N.leb_le in H1. by rewrite H1. }
  apply N.ltb_ge in H2.
  destruct (ch <? 0x10000)%N eqn:H3.
  { destruct ((0xD800 <=? ch)%N && (ch <=? 0xDFFF)%N) eqn:Hsur;
      [discriminate|].
    intros [= <-]. apply N.ltb_lt in H3.
    assert (Hh : (N.shiftr ch 12 < 16)%N).
    { apply shiftr_lt. change (16 * 2 ^ 12)%N with 0x10000%N. lia. }
    pose proof (lead3_byte _ Hh) as L. unfold lead3_ok in L. cbv zeta in L.
    apply andb_prop in L as [[[L1%negb_true_iff L2%negb_true_iff]%andb_prop
      L3]%andb_prop L4%N.eqb_eq].
    unfold utf8_decode_char. cbn [app]. cbv zeta.
    rewrite L1, L2, L3, L4, !(continuation_byte _ (low6_lt _)), join_12.
    apply N.leb_le in H2. by rewrite H2, Hsur. }
  apply N.ltb_ge in H3.
  destruct (ch <? 0x110000)%N eqn:H4; [|discriminate].
  intros [= <-]. pose proof H4 as H4'. apply N.ltb_lt in H4'.
  assert (Hh : (N.shiftr ch 18 < 8)%N).
  { apply shiftr_lt. change (8 * 2 ^ 18)%N with 0x200000%N. lia. }
  pose proof (lead4_byte _ Hh) as L. unfold lead4_ok in L. cbv zeta in L.
  apply andb_prop in L as [[[[L1%negb_true_iff L2%negb_true_iff]%andb_prop
    L3%negb_true_iff]%andb_prop L4]%andb_prop L5%N.eqb_eq].
  unfold utf8_decode_char. cbn [app]. cbv zeta.
  rewrite L1, L2, L3, L4, L5, !(continuation_byte _ (low6_lt _)), join_18.
  apply N.leb_le in H3. by rewrite H3, H4.
Qed.

Lemma encode_char_nonempty (ch : N) (bs : list byte) :
  utf8_encode_char ch = Some bs -> bs <> [].
Proof.
  unfold utf8_encode_char. repeat case_match; by intros [= <-].
Qed.

Lemma decode_encode_fuel (s : pystr) (bs : list byte) (fuel : nat) :
  utf8_encode s = Some bs ->
  (length bs <= fuel)%nat ->
  utf8_decode_fuel fuel bs = Some s.
Proof.
  revert bs fuel. induction s as [|ch s IH]; intros bs fuel.
  - intros [= <-] _. by destruct fuel.
  - cbn [utf8_encode].
    destruct (utf8_encode_char ch) as [cbs|] eqn:Hch; [|discriminate].
    destruct (utf8_encode s) as [rest|] eqn:Hs; [|discriminate].
    intros [= <-] Hlen.
    pose proof (encode_char_nonempty _ _ Hch) as Hne.
    destruct cbs as [|b cbs]; [done|].
    destruct fuel as [|fuel]; [cbn in Hlen; lia|].
    cbn [utf8_decode_fuel app].
    change (b :: cbs ++ rest) with ((b :: cbs) ++ rest).
    rewrite (decode_encode_char _ _ rest Hch).
    rewrite (IH rest fuel eq_refl); [done|].
    cbn in Hlen. rewrite length_app in Hlen. lia.
Qed.

(** The strict decoder gives back the string that was encoded: the bytes
    lose nothing and add nothing. *)
Lemma utf8_decode_encode (s : pystr) (bs : list byte) :
  utf8_encode s = Some bs -> utf8_decode bs = Some s.
Proof. intros H. by apply decode_encode_fuel. Qed.

(** ASCII text is encoded byte for byte. *)
Lemma utf8_encode_ascii (s : pystr) :
  Forall (fun ch => (ch < 0x80)%N) s ->
  utf8_encode s = Some (map byte_of_N s).
Proof.
  induction 1 as [|ch s Hch _ IH]; [done|].
  cbn [utf8_encode map]. rewrite IH. unfold utf8_encode_char.
  apply N.ltb_lt in Hch. by rewrite Hch.
Qed.

End Utf8.

(** ** The session over a history of interactions *)

Lemma generated_name_not_generate (i : interaction) :
  clicked (i_inputs i) <> Some GenerateButton -> generated_name i = None.
Proof.
  intros H. unfold generated_name.
  rewrite (bool_decide_eq_false_2 _ H). by rewrite andb_false_r.
Qed.

Lemma last_generated_name_snoc (history : list interaction)
    (i : interaction) :
  last_generated_name (history ++ [i]) =
    match generated_name i with
    | Some name => Some name
    | None => last_generated_name history
    end.
Proof.
  induction history as [|a history IH]; cbn [app last_generated_name].
  - by destruct (generated_name i).
  - rewrite IH. by destruct (generated_name i).
Qed.

Lemma last_generated_name_app_none (history rest : list interaction) :
  Forall (fun i => generated_name i = None) rest ->
  last_generated_name (history ++ rest) = last_generated_name history.
Proof.
  induction rest as [|i rest IH] using rev_ind; intros H.
  - by rewrite app_nil_r.
  - apply Forall_app in H as [Hrest Hi%Forall_inv].
    cbv beta in Hi.
    rewrite app_assoc, last_generated_name_snoc, Hi. auto.
Qed.

(** The stored download name changes exactly on a successful generate
    action, to the product name submitted with it. *)
Lemma run_interaction_name (session : gmap string pyval) (i : interaction) :
  session_state (run_interaction session i) !! "product_name_for_download" =
    match generated_name i with
    | Some name => Some (PStr name)
    | None => session !! "product_name_for_download"
    end.
Proof.
  unfold run_interaction. rewrite run_session.
  unfold generated_name, generation_request, after_generate,
    after_regenerate.
  destruct (configured (i_env i)); [|done]. cbv zeta. cbn [andb].
  destruct (bool_decide (clicked (i_inputs i) = Some GenerateButton)) eqn:Hg;
    cbn [andb].
  - apply bool_decide_eq_true_1 in Hg.
    rewrite (bool_decide_eq_false_2 (clicked (i_inputs i) = Some RegenerateButton))
      by (rewrite Hg; done).
    destruct (nonempty (in_product_name (i_inputs i))),
      (nonempty (in_key_features (i_inputs i))); cbn [andb session_state];
      try by destruct (result_shown _).
    destruct (generation _ _); cbn [session_state];
      destruct (result_shown _); cbn [session_state]; by simplify_map_eq.
  - cbn [session_state page sent].
    destruct (result_shown session); [|done].
    repeat case_match; cbn [session_state]; by simplify_map_eq.
Qed.

(** A result enters the session only through a successful generate
    action: regenerate needs one to be there already. *)
Lemma run_interaction_output (session : gmap string pyval)
    (i : interaction) :
  is_Some (session_state (run_interaction session i) !! "generated_output") ->
  is_Some (session !! "generated_output") \/ is_Some (generated_name i).
Proof.
  unfold run_interaction. rewrite run_session.
  unfold generated_name, generation_request, after_generate,
    after_regenerate.
  destruct (configured (i_env i)); [|by left]. cbv zeta. cbn [andb].
  destruct (bool_decide (clicked (i_inputs i) = Some GenerateButton)) eqn:Hg;
    cbn [andb].
  - apply bool_decide_eq_true_1 in Hg.
    rewrite (bool_decide_eq_false_2 (clicked (i_inputs i) = Some RegenerateButton))
      by (rewrite Hg; done).
    destruct (nonempty (in_product_name (i_inputs i))),
      (nonempty (in_key_features (i_inputs i))); cbn [andb session_state];
      try (destruct (result_shown _); by left).
    destruct (generation _ _); cbn [session_state].
    + destruct (result_shown _); by left.
    + intros _. right. by eexists.
  - cbn [session_state page sent].
    destruct (result_shown session) eqn:Hs; [|by left].
    intros _. left. unfold result_shown in Hs.
    destruct (session !! "generated_output"); [by eexists | discriminate].
Qed.

(** Regenerate, and every run other than a generate action, can change
    the session at the result slot only. *)
Lemma run_frame env inp prov (session : gmap string pyval) (k : string) :
  clicked inp <> Some GenerateButton ->
  k <> "generated_output" ->
  session_state (snd (run env inp prov session)) !! k = session !! k.
Proof.
  intros Hclick Hk. rewrite run_session.
  unfold after_generate, after_regenerate.
  rewrite (bool_decide_eq_false_2 _ Hclick).
  repeat case_match; cbn [session_state]; by simplify_map_eq.
Qed.

(** From the empty session of a first visit: the stored name is the name
    of the most recent successful generate action, and there is a result
    only if there was such an action. *)
Lemma session_after_invariant (history : list interaction) :
  let session := session_after ∅ history in
  session !! "product_name_for_download"
    = PStr <$> last_generated_name history /\
  (is_Some (session !! "generated_output") ->
   is_Some (last_generated_name history)).
Proof.
  induction history as [|i history IH] using rev_ind.
  { unfold session_after. cbn [fold_left last_generated_name].
    rewrite !lookup_empty. split; [done | by intros [? ?]]. }
  cbv zeta in *. destruct IH as [IHn IHo].
  rewrite session_after_snoc, last_generated_name_snoc. split.
  - rewrite run_interaction_name, IHn. by destruct (generated_name i).
  - intros [H|[n Hn]]%run_interaction_output.
    + destruct (generated_name i); [by eexists | auto].
    + rewrite Hn. by eexists.
Qed.

(** The download button of a run that follows a history: its bytes, its
    file name and its media type. *)
Lemma reachable_download_button (history : list interaction) env inp prov
    (label : pystr) (data : list byte) (file_name mime : pystr) :
  let s := snd (run env inp prov (session_after ∅ history)) in
  In (DownloadButton label data file_name mime) (page s) ->
  exists name r,
    last_generated_name (history ++ [Interaction env inp prov]) = Some name /\
    file_name = name ++ DOWNLOAD_SUFFIX /\
    mime = lit "text/plain" /\
    session_state s !! "generated_output" = Some (PStr r) /\
    utf8_encode r = Some data.
Proof.
  intros s Hin.
  apply run_download_button in Hin as (d & f & m & Hoffer & Heq); [|done].
  injection Heq as _ -> -> ->.
  pose proof (session_after_invariant (history ++ [Interaction env inp prov]))
    as [Hn Ho].
  cbv zeta in Hn, Ho. rewrite session_after_snoc in Hn, Ho.
  unfold run_interaction in Hn, Ho. cbn [i_env i_inputs i_provider] in Hn, Ho.
  unfold download_offer in Hoffer. fold s in Hn, Ho, Hoffer.
  destruct (session_state s !! "generated_output") as [[|r]|] eqn:Hgo;
    try discriminate.
  destruct (utf8_encode r) as [bytes|] eqn:Henc; [|discriminate].
  destruct Ho as [name Hname]; [by eexists|].
  rewrite Hname in Hn. rewrite Hn in Hoffer. cbn in Hoffer.
  injection Hoffer as <- <- <-. by exists name, r.
Qed.

(** ** The download *)

(** When a truthy result is stored and the click is neither generate nor
    regenerate, the download button is on the page, with the encoding of
    that result. *)
Lemma download_offered env inp prov (session : gmap string pyval)
    (r : pystr) (data : list byte) :
  configured env = true ->
  clicked inp <> Some GenerateButton ->
  clicked inp <> Some RegenerateButton ->
  session !! "generated_output" = Some (PStr r) ->
  r <> [] ->
  utf8_encode r = Some data ->
  exists file_name,
    In (DownloadButton DOWNLOAD_LABEL data file_name (lit "text/plain"))
      (page (snd (run env inp prov session))).
Proof.
  intros Hc Hg Hr Hgo Hne Henc. rewrite run_configured by done. cbv zeta.
  unfold after_generate, after_regenerate.
  rewrite (bool_decide_eq_false_2 _ Hg), (bool_decide_eq_false_2 _ Hr).
  cbn [session_state page sent]. unfold result_shown, download_offer.
  rewrite Hgo, Henc. cbn [truthy]. rewrite (nonempty_true r Hne).
  eexists. cbn [page]. apply in_app_iff. right. by left.
Qed.

(** C6. The bytes of any download button on the page of a run are the
    UTF-8 encoding of the string in the result slot at the end of that run
    (decoding them gives that string back); and with a non-empty result
    stored, the button is there with these bytes. *)
Theorem download_bytes_encode_last_result :
  (forall env inp prov (session : gmap string pyval)
          (label : pystr) (data : list byte) (file_name mime : pystr),
      let s := snd (run env inp prov session) in
      In (DownloadButton label data file_name mime) (page s) ->
      exists r : pystr,
        session_state s !! "generated_output" = Some (PStr r) /\
        utf8_encode r = Some data /\
        utf8_decode data = Some r) /\
  (forall env inp prov (session : gmap string pyval)
          (r : pystr) (data : list byte),
      configured env = true ->
      clicked inp = None \/ clicked inp = Some DownloadContentButton ->
      session !! "generated_output" = Some (PStr r) ->
      r <> [] ->
      utf8_encode r = Some data ->
      exists label file_name mime,
        In (DownloadButton label data file_name mime)
          (page (snd (run env inp prov session)))).
Proof.
  split.
  - intros env inp prov session label data file_name mime s Hin.
    apply run_download_button in Hin as (d & f & m & Hoffer & Heq); [|done].
    injection Heq as _ -> -> ->. fold s in Hoffer.
    unfold download_offer in Hoffer.
    destruct (session_state s !! "generated_output") as [[|r]|];
      try discriminate.
    destruct (utf8_encode r) as [bytes|] eqn:Henc; [|discriminate].
    injection Hoffer as <- _ _. exists r.
    split; [done|]. split; [done|]. by apply Utf8.utf8_decode_encode.
  - intros env inp prov session r data Hc Hclick Hgo Hne Henc.
    destruct (download_offered env inp prov session r data) as [f Hf];
      try done; [by destruct Hclick as [-> | ->]
                | by destruct Hclick as [-> | ->] | by eexists _, _, _].
Qed.

Lemma download_bytes_encode_last_result_witness :
  let env := Environment (<["GROQ_API_KEY" := lit "gsk"]> ∅) None in
  let inp := Inputs (lit "Mug") (lit "Kitchen") (lit "- Keeps drinks hot")
               (lit "Office workers") (lit "Friendly")
               (lit "Short (1 paragraph)") (Some DownloadContentButton) in
  let prov : provider := fun _ => inr [] in
  let text := lit "caf" ++ [0xE9; 0x20; 0x20AC; 0x20; 0x1F680]%N in
  let session : gmap string pyval :=
    <["generated_output" := PStr text]>
      (<["product_name_for_download" := PStr (lit "Mug")]> ∅) in
  let data := [x63; x61; x66; xc3; xa9; x20; xe2; x82; xac; x20;
               xf0; x9f; x9a; x80] in
  (exists r : pystr,
      session_state (snd (run env inp prov session)) !! "generated_output"
      = Some (PStr r) /\
      utf8_encode r = Some data /\ utf8_decode data = Some r) /\
  (exists label file_name mime,
      In (DownloadButton label data file_name mime)
        (page (snd (run env inp prov session)))).
Proof.
  intros env inp prov text session data. split.
  - apply (proj1 download_bytes_encode_last_result env inp prov session
             DOWNLOAD_LABEL data (lit "Mug_descriptions_hashtags.txt")
             (lit "text/plain")).
    vm_compute. repeat (first [left; reflexivity | right]).
  - apply (proj2 download_bytes_encode_last_result env inp prov session
             text data);
      [reflexivity | right; reflexivity | reflexivity | discriminate
      | reflexivity].
Defined.

(** C8. After any history of interactions from a first visit, a download
    button on the page offers a text/plain file named by the product name
    of the most recent successful generate action followed by
    "_descriptions_hashtags.txt", whose bytes are the UTF-8 encoding of
    the stored result, nothing lost. *)
Theorem download_file_named_after_product (history : list interaction)
    env inp prov (label : pystr) (data : list byte)
    (file_name mime : pystr) :
  let s := snd (run env inp prov (session_after ∅ history)) in
  In (DownloadButton label data file_name mime) (page s) ->
  exists name r : pystr,
    last_generated_name (history ++ [Interaction env inp prov]) = Some name /\
    file_name = name ++ lit "_descriptions_hashtags.txt" /\
    mime = lit "text/plain" /\
    session_state s !! "generated_output" = Some (PStr r) /\
    utf8_encode r = Some data /\
    utf8_decode data = Some r.
Proof.
  intros s Hin.
  apply reachable_download_button in Hin
    as (name & r & Hname & Hf & Hm & Hgo & Henc).
  exists name, r. repeat split; try done.
  by apply Utf8.utf8_decode_encode.
Qed.

Lemma download_file_named_after_product_witness :
  let env := Environment (<["GROQ_API_KEY" := lit "gsk"]> ∅) None in
  let prov : provider := fun _ => inr [PStr (lit "Stay warm.")] in
  let generate := Inputs (lit "Test Mug") (lit "Kitchen")
                    (lit "- Keeps drinks hot") (lit "Office workers")
                    (lit "Friendly") (lit "Short (1 paragraph)")
                    (Some GenerateButton) in
  let later := Inputs (lit "Lamp") (lit "Kitchen")
                 (lit "- Keeps drinks hot") (lit "Office workers")
                 (lit "Friendly") (lit "Short (1 paragraph)")
                 (Some DownloadContentButton) in
  let data := [x53; x74; x61; x79; x20; x77; x61; x72; x6d; x2e] in
  exists name r : pystr,
    last_generated_name
      ([Interaction env generate prov] ++ [Interaction env later prov])
    = Some name /\
    lit "Test Mug_descriptions_hashtags.txt"
    = name ++ lit "_descriptions_hashtags.txt" /\
    lit "text/plain" = lit "text/plain" /\
    session_state
      (snd (run env later prov
              (session_after ∅ [Interaction env generate prov])))
    !! "generated_output" = Some (PStr r) /\
    utf8_encode r = Some data /\
    utf8_decode data = Some r.
Proof.
  intros env prov generate later data.
  apply (download_file_named_after_product [Interaction env generate prov]
           env later prov DOWNLOAD_LABEL data
           (lit "Test Mug_descriptions_hashtags.txt") (lit "text/plain")).
  vm_compute. repeat (first [left; reflexivity | right]).
Defined.

(** C10. A regenerate run changes no session key other than
    "generated_output", so not "product_name_for_download"; and after a
    successful generate action followed by any number of regenerate runs,
    whatever the fields then hold, the stored name is still the one of
    that generate action and the download file is named after it. *)
Theorem regenerate_keeps_download_name :
  (forall env inp prov (session : gmap string pyval) (k : string),
      clicked inp = Some RegenerateButton ->
      k <> "generated_output" ->
      session_state (snd (run env inp prov session)) !! k = session !! k) /\
  (forall (history regens : list interaction) env inp prov (name : pystr)
          (label : pystr) (data : list byte) (file_name mime : pystr),
      last_generated_name history = Some name ->
      Forall (fun i => clicked (i_inputs i) = Some RegenerateButton) regens ->
      clicked inp = Some RegenerateButton ->
      let session := session_after ∅ (history ++ regens) in
      session !! "product_name_for_download" = Some (PStr name) /\
      (In (DownloadButton label data file_name mime)
          (page (snd (run env inp prov session))) ->
       file_name = name ++ lit "_descriptions_hashtags.txt")).
Proof.
  split.
  - intros env inp prov session k Hclick Hk.
    apply run_frame; [by rewrite Hclick | done].
  - intros history regens env inp prov name label data file_name mime
      Hname Hregens Hclick session.
    assert (Hnone : Forall (fun i => generated_name i = None) regens).
    { eapply Forall_impl; [exact Hregens|]. intros i Hi. cbv beta in Hi.
      apply generated_name_not_generate. by rewrite Hi. }
    split.
    + pose proof (session_after_invariant (history ++ regens)) as [Hn _].
      cbv zeta in Hn. fold session in Hn.
      by rewrite Hn, last_generated_name_app_none, Hname.
    + intros Hin.
      apply reachable_download_button in Hin
        as (name' & r & Hname' & Hf & _).
      rewrite last_generated_name_snoc in Hname'.
      rewrite generated_name_not_generate in Hname'
        by (cbn [i_inputs]; by rewrite Hclick).
      rewrite last_generated_name_app_none, Hname in Hname' by done.
      by injection Hname' as <-.
Qed.

Lemma regenerate_keeps_download_name_witness :
  let env := Environment (<["GROQ_API_KEY" := lit "gsk"]> ∅) None in
  let prov : provider := fun _ => inr [PStr (lit "Stay warm.")] in
  let generate := Inputs (lit "Mug") (lit "Kitchen")
                    (lit "- Keeps drinks hot") (lit "Office workers")
                    (lit "Friendly") (lit "Short (1 paragraph)")
                    (Some GenerateButton) in
  let regenerate := Inputs (lit "Lamp") (lit "Lighting")
                      (lit "- Warm light") (lit "Readers")
                      (lit "Playful") (lit "Long (3 paragraphs)")
                      (Some RegenerateButton) in
  let history := [Interaction env generate prov] in
  let regens := [Interaction env regenerate prov;
                 Interaction env regenerate prov] in
  session_after ∅ (history ++ regens) !! "product_name_for_download"
  = Some (PStr (lit "Mug")) /\
  session_state (snd (run env regenerate prov (session_after ∅ history)))
  !! "product_name_for_download"
  = session_after ∅ history !! "product_name_for_download".
Proof.
  intros env prov generate regenerate history regens. split.
  - apply (proj2 regenerate_keeps_download_name history regens env
             regenerate prov (lit "Mug") DOWNLOAD_LABEL [] [] []);
      [reflexivity | repeat constructor | reflexivity].
  - apply (proj1 regenerate_keeps_download_name env regenerate prov
             (session_after ∅ history));
      [reflexivity | discriminate].
Defined.

(** * Further properties of the script *)

(** ** How a run ends *)

Section Outcome.

Variable env : environment.
Variable inp : inputs.
Variable prov : provider.

Lemma download_column_full (s : state) :
  download_column inp s =
    match download_offer (session_state s) with
    | Some (data, file_name, mime) =>
        (Return tt,
         State (session_state s)
           (page s ++ [DownloadButton DOWNLOAD_LABEL data file_name mime])
           (sent s))
    | None => (Raise (download_error (session_state s)), s)
    end.
Proof.
  unfold download_offer, download_error, download_column, session_get,
    session_getitem, bind, ret, st_download_button, emit.
  cbn beta iota.
  destruct (session_state s !! "generated_output") as [[|r]|];
    [reflexivity| |reflexivity].
  unfold encode_utf8. destruct (utf8_encode r) as [data|]; [|reflexivity].
  by destruct s.
Qed.

(** The whole result of a configured run: how it ends and the state. *)
Lemma run_configured_full (session : gmap string pyval) :
  configured env = true ->
  let key := os_getenv env "GROQ_API_KEY" in
  let s1 := after_generate prov key inp
              (State session (form_elements inp) []) in
  let s2 := after_regenerate prov key inp
              (State (session_state s1) (page s1 ++ [Divider]) (sent s1)) in
  run env inp prov session =
    if result_shown (session_state s1) then
      match download_offer (session_state s2) with
      | Some (data, file_name, mime) =>
          (Return tt,
           State (session_state s2)
             (page s2 ++
                DownloadButton DOWNLOAD_LABEL data file_name mime
                :: footer_elements)
             (sent s2))
      | None => (Raise (download_error (session_state s2)), s2)
      end
    else
      (Return tt,
       State (session_state s1) (page s1 ++ footer_elements) (sent s1)).
Proof.
  intros H key s1 s2. unfold run. rewrite main_configured by done.
  unfold bind at 1. rewrite llm_call_and_output_eq. fold key. fold s1.
  unfold bind at 1.
  destruct (result_shown (session_state s1)) eqn:Hshown.
  - rewrite regenerate_and_download_shown by done. fold s2.
    rewrite download_column_full.
    destruct (download_offer (session_state s2)) as [[[data f] m]|];
      [|reflexivity].
    rewrite page_footer_eq. cbn [session_state page sent].
    by rewrite <- app_assoc.
  - rewrite regenerate_and_download_hidden by done.
    by rewrite page_footer_eq.
Qed.

End Outcome.

(** ** Configuration failures *)



(** X2. A key that is set but empty counts as missing: the run stops on the
    same configuration error as for an absent key. *)
Theorem empty_key_halts env inp prov (session : gmap string pyval) :
  environ env !! "GROQ_API_KEY" = Some (lit "") ->
  run env inp prov session = (Stop, State session [Error KEY_MISSING] []).
Proof.
  intros Hk. unfold run, main, bind at 1.
  rewrite configuration_key_missing; [done|].
  unfold os_getenv. by rewrite Hk.
Qed.

Lemma empty_key_halts_witness :
  run (Environment (<["GROQ_API_KEY" := lit ""]> ∅) None) initial_inputs
      (fun _ => inr [PStr (lit "text")]) ∅
  = (Stop, State ∅ [Error KEY_MISSING] []).
Proof.
  apply (empty_key_halts (Environment (<["GROQ_API_KEY" := lit ""]> ∅) None)).
  reflexivity.
Defined.

(** ** Calls of [create] *)

Lemma run_interaction_requests (session : gmap string pyval)
    (i : interaction) :
  sent (run_interaction session i) = [] \/
  sent (run_interaction session i)
  = [generation_request (i_env i) (i_inputs i)].
Proof.
  unfold run_interaction. rewrite run_sent.
  destruct (configured (i_env i)); [|by left].
  cbv zeta.
  unfold after_generate, after_regenerate, generation_request.
  destruct (clicked (i_inputs i)) as [[]|] eqn:Hclick;
    rewrite ?bool_decide_eq_true_2 by done;
    rewrite ?bool_decide_eq_false_2 by done;
    repeat case_match; cbn [sent app]; auto.
Qed.

(** X3. A run calls [client.chat.completions.create] at most once, and
    when it does the call has two messages (system, then user with the
    prompt built from the widget values of this run and count 2), the
    fixed model, temperature 0.8 and 2048 tokens, on the client holding the
    key of the environment. *)
Theorem at_most_one_create_call env inp prov (session : gmap string pyval) :
  let s := snd (run env inp prov session) in
  sent s = [] \/
  sent s =
    [Request (os_getenv env "GROQ_API_KEY")
       [system_message;
        Message (lit "user")
          (build_prompt (in_product_name inp) (in_product_category inp)
             (in_key_features inp) (in_target_audience inp)
             (in_tone_of_voice inp) (in_description_length inp) 2)]
       (lit "llama-3.1-8b-instant") (8 # 10) 2048].
Proof.
  exact (run_interaction_requests session (Interaction env inp prov)).
Qed.

(** X4. A run that is not a click on generate or regenerate (a widget
    edit, a click on download, a first visit) sends nothing and leaves the
    session as it was. *)
Theorem no_action_no_effect env inp prov (session : gmap string pyval) :
  clicked inp <> Some GenerateButton ->
  clicked inp <> Some RegenerateButton ->
  let s := snd (run env inp prov session) in
  sent s = [] /\ session_state s = session.
Proof.
  intros Hg Hr s. subst s. rewrite run_sent, run_session.
  unfold after_generate, after_regenerate.
  rewrite (bool_decide_eq_false_2 _ Hg), (bool_decide_eq_false_2 _ Hr).
  cbn [session_state sent]. by repeat case_match.
Qed.

Lemma no_action_no_effect_witness :
  let env := Environment (<["GROQ_API_KEY" := lit "gsk"]> ∅) None in
  let session : gmap string pyval :=
    <["generated_output" := PStr (lit "old text")]>
      (<["product_name_for_download" := PStr (lit "Mug")]> ∅) in
  let inp := Inputs (lit "Lamp") (lit "Lighting") (lit "- Warm light")
               (lit "Readers") (lit "Playful") (lit "Long (3 paragraphs)")
               (Some DownloadContentButton) in
  let s := snd (run env inp (fun _ => inr [PStr (lit "text")]) session) in
  sent s = [] /\ session_state s = session.
Proof.
  intros env session inp.
  apply (no_action_no_effect env inp (fun _ => inr [PStr (lit "text")])
           session); discriminate.
Defined.

(** X5. Over a whole history the script calls [create] no more often than
    generate and regenerate are clicked: a handler never calls it a second
    time, and a rerun that is no such click never calls it. *)
Theorem create_calls_bounded_by_clicks (session : gmap string pyval)
    (history : list interaction) :
  (length (requests_of session history)
   <= length (filter (fun i => is_action i = true) history))%nat.
Proof.
  revert session. induction history as [|i history IH]; intros session.
  - done.
  - cbn [requests_of]. rewrite length_app, filter_cons.
    specialize (IH (session_state (run_interaction session i))).
    destruct (decide (is_action i = true)) as [Ha|Ha].
    + destruct (run_interaction_requests session i) as [-> | ->];
        cbn [length]; lia.
    + assert (sent (run_interaction session i) = []) as ->; [|cbn; lia].
      apply not_true_is_false in Ha. unfold is_action in Ha.
      apply orb_false_elim in Ha as [Hg%bool_decide_eq_false_1
        Hr%bool_decide_eq_false_1].
      unfold run_interaction. rewrite run_sent.
      unfold after_generate, after_regenerate.
      rewrite (bool_decide_eq_false_2 _ Hg), (bool_decide_eq_false_2 _ Hr).
      cbn [session_state sent]. by repeat case_match.
Qed.

(** ** The encoder on scalar values and on surrogates *)

Lemma encode_char_scalar (ch : N) :
  is_scalar ch = true ->
  exists bs, utf8_encode_char ch = Some bs /\
             (1 <= length bs <= 4)%nat.
Proof.
  unfold is_scalar, utf8_encode_char.
  destruct (N.ltb_spec ch 0x80), (N.ltb_spec ch 0x800),
    (N.ltb_spec ch 0x10000), (N.leb_spec 0xD800 ch),
    (N.leb_spec ch 0xDFFF), (N.ltb_spec ch 0x110000),
    (N.ltb_spec ch 0xD800), (N.ltb_spec 0xDFFF ch);
    cbn [andb orb]; intros Hs; try discriminate Hs; try lia;
    eexists; (split; [reflexivity|cbn [length]; lia]).
Qed.

Lemma encode_char_not_scalar (ch : N) :
  is_scalar ch = false -> utf8_encode_char ch = None.
Proof.
  unfold is_scalar, utf8_encode_char.
  destruct (N.ltb_spec ch 0x80), (N.ltb_spec ch 0x800),
    (N.ltb_spec ch 0x10000), (N.leb_spec 0xD800 ch),
    (N.leb_spec ch 0xDFFF), (N.ltb_spec ch 0x110000),
    (N.ltb_spec ch 0xD800), (N.ltb_spec 0xDFFF ch);
    cbn [andb orb]; intros Hs; try discriminate Hs; try lia; reflexivity.
Qed.

(** A string of scalar values is encoded, to between one and four bytes
    per code point. *)
Lemma utf8_encode_scalars (s : pystr) :
  Forall (fun ch => is_scalar ch = true) s ->
  exists data, utf8_encode s = Some data /\
               (length s <= length data <= 4 * length s)%nat.
Proof.
  induction 1 as [|ch s Hch _ (rest & Hrest & Hlen)].
  - exists []. split; [reflexivity | cbn; lia].
  - destruct (encode_char_scalar ch Hch) as (bs & Hbs & Hb).
    exists (bs ++ rest). cbn [utf8_encode]. rewrite Hbs, Hrest.
    split; [reflexivity|]. rewrite length_app. cbn [length]. lia.
Qed.

(** A string with a surrogate, or a value out of range, is refused. *)
Lemma utf8_encode_refused (s : pystr) :
  Exists (fun ch => is_scalar ch = false) s -> utf8_encode s = None.
Proof.
  induction 1 as [ch s Hch | ch s _ IH]; cbn [utf8_encode].
  - by rewrite (encode_char_not_scalar ch Hch).
  - rewrite IH. by destruct (utf8_encode_char ch).
Qed.

(** X10. Two strings never encode to the same bytes: what is offered for
    download determines the stored text. *)
Theorem utf8_encode_injective (s1 s2 : pystr) (data : list byte) :
  utf8_encode s1 = Some data -> utf8_encode s2 = Some data -> s1 = s2.
Proof.
  intros H1%Utf8.utf8_decode_encode H2%Utf8.utf8_decode_encode.
  congruence.
Qed.

Lemma utf8_encode_injective_witness :
  [0xE9; 0x20AC]%N = [0xE9; 0x20AC]%N.
Proof.
  apply (utf8_encode_injective [0xE9; 0x20AC]%N [0xE9; 0x20AC]%N
           [xc3; xa9; xe2; x82; xac]); reflexivity.
Defined.

(** ** Generate and regenerate, case by case *)

(** [st.markdown] raises on no falsy value and on no text of scalar
    values; what it raises is a [UnicodeEncodeError]. *)
Lemma markdown_failure_falsy (v : pyval) :
  truthy v = false -> markdown_failure v = None.
Proof. by destruct v as [|[|ch r]]. Qed.

Lemma markdown_failure_scalars (r : pystr) :
  Forall (fun ch => is_scalar ch = true) r ->
  markdown_failure (PStr r) = None.
Proof.
  intros H. unfold markdown_failure.
  by rewrite (proj2 (forallb_forall is_scalar r))
    by (intros ch Hch; by apply (proj1 (List.Forall_forall _ r) H)).
Qed.

Lemma markdown_failure_encodable (r : pystr) (data : list byte) :
  utf8_encode r = Some data -> markdown_failure (PStr r) = None.
Proof.
  intros Henc. unfold markdown_failure.
  destruct (forallb is_scalar r) eqn:Hall; [done|].
  assert (Hex : Exists (fun ch => is_scalar ch = false) r).
  { clear Henc. induction r as [|ch r IH]; [discriminate|].
    cbn [forallb] in Hall. destruct (is_scalar ch) eqn:Hch.
    - apply Exists_cons_tl, IH. exact Hall.
    - by apply Exists_cons_hd. }
  apply utf8_encode_refused in Hex. congruence.
Qed.

Lemma markdown_failure_class (v : pyval) (e : exn) :
  markdown_failure v = Some e -> exn_class e = "UnicodeEncodeError".
Proof.
  destruct v as [|r]; [discriminate|]. unfold markdown_failure.
  destruct (forallb is_scalar r); [discriminate|]. by intros [= <-].
Qed.

Lemma generation_first_choice prov (req : request) (v : pyval)
    (others : list pyval) :
  prov req = inr (v :: others) -> generation prov req = inr v.
Proof. unfold generation. by intros ->. Qed.

Lemma generation_no_choice prov (req : request) :
  prov req = inr [] ->
  generation prov req
  = inl (Exn "IndexError" (lit "list index out of range")).
Proof. unfold generation. by intros ->. Qed.

(** The state after the generate section, for a click with both fields
    filled. *)
Lemma after_generate_clicked prov (key : pyval) inp (s : state) :
  clicked inp = Some GenerateButton ->
  in_product_name inp <> [] -> in_key_features inp <> [] ->
  after_generate prov key inp s =
    let req :=
      completion_request key
        (build_prompt (in_product_name inp) (in_product_category inp)
           (in_key_features inp) (in_target_audience inp)
           (in_tone_of_voice inp) (in_description_length inp) 2) in
    match generation prov req with
    | inr v =>
        State
          (<["product_name_for_download" := PStr (in_product_name inp)]>
             (<["generated_output" := v]> (session_state s)))
          (page s ++
             Spinner (lit "Creating content with " ++ GROQ_MODEL ++ lit "...")
             :: Subheader ([0x2728%N] ++ lit " Your Generated Content")
             :: rendering v (lit "Content generated successfully!")
                  API_CALL_FAILED API_CALL_HINT)
          (sent s ++ [req])
    | inl e =>
        State (session_state s)
          (page s ++
             [Spinner (lit "Creating content with " ++ GROQ_MODEL ++ lit "...");
              Error (API_CALL_FAILED ++ exn_msg e);
              Warning API_CALL_HINT])
          (sent s ++ [req])
    end.
Proof.
  intros Hclick Hn%nonempty_true Hf%nonempty_true. unfold after_generate.
  decide_click Hclick. by rewrite Hn, Hf.
Qed.

Lemma after_generate_other prov (key : pyval) inp (s : state) :
  clicked inp <> Some GenerateButton -> after_generate prov key inp s = s.
Proof.
  intros H. unfold after_generate. by rewrite (bool_decide_eq_false_2 _ H).
Qed.

Lemma after_regenerate_other prov (key : pyval) inp (s : state) :
  clicked inp <> Some RegenerateButton ->
  after_regenerate prov key inp s
  = State (session_state s) (page s ++ [Button REGENERATE_LABEL]) (sent s).
Proof.
  intros H. unfold after_regenerate.
  by rewrite (bool_decide_eq_false_2 _ H).
Qed.

(** X6. A provider that answers with no choice is handled like a failed
    call: [choices[0]] raises inside the [try], the error "list index out
    of range" is shown, and the session is left as it was. *)
Theorem empty_choices_handled env inp prov (session : gmap string pyval) :
  configured env = true ->
  prov (generation_request env inp) = inr [] ->
  let s := snd (run env inp prov session) in
  (clicked inp = Some GenerateButton ->
   in_product_name inp <> [] -> in_key_features inp <> [] ->
   In (Error (lit "An error occurred during API call: "
              ++ lit "list index out of range")) (page s) /\
   session_state s = session) /\
  (clicked inp = Some RegenerateButton ->
   result_shown session = true ->
   In (Error (lit "An error occurred during regeneration: "
              ++ lit "list index out of range")) (page s) /\
   session_state s = session).
Proof.
  intros Hc He%generation_no_choice s. unfold generation_request in He.
  subst s. split.
  - intros Hclick Hn Hf.
    pose proof (after_generate_clicked prov (os_getenv env "GROQ_API_KEY")
                  inp (State session (form_elements inp) []) Hclick Hn Hf)
      as Hs1.
    cbv zeta in Hs1. rewrite He in Hs1. cbn [session_state page sent] in Hs1.
    split.
    + apply run_page_generate; [done|]. rewrite Hs1. cbn [page].
      apply in_app_iff. right. right. by left.
    + rewrite run_session, Hc. cbv zeta. rewrite Hs1. cbn [session_state].
      rewrite after_regenerate_other by (by rewrite Hclick).
      by destruct (result_shown _).
  - intros Hclick Hshown.
    assert (Hs1 :
      after_generate prov (os_getenv env "GROQ_API_KEY") inp
        (State session (form_elements inp) [])
      = State session (form_elements inp) []).
    { apply after_generate_other. by rewrite Hclick. }
    assert (Hs2 :
      session_state
        (after_regenerate prov (os_getenv env "GROQ_API_KEY") inp
           (State session (form_elements inp ++ [Divider]) []))
      = session /\
      In (Error (REGENERATION_FAILED ++ lit "list index out of range"))
        (page (after_regenerate prov (os_getenv env "GROQ_API_KEY") inp
                 (State session (form_elements inp ++ [Divider]) [])))).
    { unfold after_regenerate. decide_click Hclick. rewrite He.
      cbn [session_state page exn_msg]. split; [done|].
      apply in_app_iff. right. right. right. by left. }
    destruct Hs2 as [Hs2 Hin]. split.
    + apply run_page_regenerate; [done| |]; rewrite Hs1;
        cbn [session_state page sent]; done.
    + rewrite run_session, Hc. cbv zeta. rewrite Hs1.
      cbn [session_state page sent]. by rewrite Hshown.
Qed.

Lemma empty_choices_handled_witness :
  let env := Environment (<["GROQ_API_KEY" := lit "gsk"]> ∅) None in
  let none : provider := fun _ => inr [] in
  let session : gmap string pyval :=
    <["generated_output" := PStr (lit "old text")]>
      (<["product_name_for_download" := PStr (lit "Mug")]> ∅) in
  let fields := Inputs (lit "Mug") (lit "Kitchen") (lit "- Keeps drinks hot")
                  (lit "Office workers") (lit "Friendly")
                  (lit "Short (1 paragraph)") in
  session_state (snd (run env (fields (Some GenerateButton)) none session))
    = session /\
  session_state (snd (run env (fields (Some RegenerateButton)) none session))
    = session.
Proof.
  intros env none session fields. split.
  - apply (proj1 (empty_choices_handled env (fields (Some GenerateButton))
                    none session eq_refl eq_refl));
      [reflexivity | discriminate | discriminate].
  - apply (proj2 (empty_choices_handled env (fields (Some RegenerateButton))
                    none session eq_refl eq_refl));
      reflexivity.
Defined.

(** X7. A generate whose call of [create] returns a first choice stores
    its content (the other choices are ignored) under "generated_output"
    and the submitted product name under "product_name_for_download", in
    a run that called [create] once.  When [st.markdown] takes the content
    (it is [None] or has no surrogate), the content and the success
    message are shown, and a non-empty content is offered for download in
    the same run under the submitted name.  When [st.markdown] raises on
    it, the content stays stored, but the [except] branch shows "An error
    occurred during API call: ..." with that exception's message, and no
    success message. *)
Theorem successful_generate_stores_first_choice env inp prov
    (session : gmap string pyval) (v : pyval) (others : list pyval) :
  configured env = true ->
  clicked inp = Some GenerateButton ->
  in_product_name inp <> [] -> in_key_features inp <> [] ->
  prov (generation_request env inp) = inr (v :: others) ->
  let s := snd (run env inp prov session) in
  session_state s =
    <["product_name_for_download" := PStr (in_product_name inp)]>
      (<["generated_output" := v]> session) /\
  sent s = [generation_request env inp] /\
  (markdown_failure v = None ->
   In (Markdown v) (page s) /\
   In (Success (lit "Content generated successfully!")) (page s) /\
   forall (r : pystr) (data : list byte),
     v = PStr r -> r <> [] -> utf8_encode r = Some data ->
     In (DownloadButton DOWNLOAD_LABEL data
           (in_product_name inp ++ lit "_descriptions_hashtags.txt")
           (lit "text/plain")) (page s)) /\
  (forall e : exn,
      markdown_failure v = Some e ->
      exn_class e = "UnicodeEncodeError" /\
      In (Error (lit "An error occurred during API call: " ++ exn_msg e))
        (page s) /\
      ~ In (Success (lit "Content generated successfully!")) (page s)).
Proof.
  intros Hc Hclick Hn Hf Hv%generation_first_choice s.
  unfold generation_request in Hv.
  pose proof (after_generate_clicked prov (os_getenv env "GROQ_API_KEY")
                inp (State session (form_elements inp) []) Hclick Hn Hf)
    as Hs1.
  cbv zeta in Hs1. rewrite Hv in Hs1. cbn [session_state page sent] in Hs1.
  assert (Hr : clicked inp <> Some RegenerateButton) by (by rewrite Hclick).
  subst s. split; [|split; [|split]].
  - rewrite run_session, Hc. cbv zeta. rewrite Hs1. cbn [session_state].
    rewrite after_regenerate_other by done.
    by destruct (result_shown _).
  - rewrite run_sent, Hc. cbv zeta. rewrite Hs1. cbn [session_state sent].
    rewrite after_regenerate_other by done.
    by destruct (result_shown _).
  - intros Hok. unfold rendering in Hs1. rewrite Hok in Hs1.
    split; [|split].
    + apply run_page_generate; [done|]. rewrite Hs1. cbn [page].
      apply in_app_iff. right. right. right. by left.
    + apply run_page_generate; [done|]. rewrite Hs1. cbn [page].
      apply in_app_iff. right. right. right. right. by left.
    + intros r data -> Hne Henc. rewrite run_configured by done. cbv zeta.
      rewrite Hs1. cbn [session_state page sent].
      rewrite after_regenerate_other by done.
      cbn [session_state page sent].
      unfold result_shown, download_offer.
      rewrite lookup_insert_ne by done. rewrite !lookup_insert_eq.
      cbn [truthy default py_str]. rewrite (nonempty_true r Hne), Henc.
      cbn [page]. apply in_app_iff. right. by left.
  - intros e He. unfold rendering in Hs1. rewrite He in Hs1.
    split; [by eapply markdown_failure_class|]. split.
    + apply run_page_generate; [done|]. rewrite Hs1. cbn [page].
      apply in_app_iff. right. right. right. by left.
    + rewrite run_configured by done. cbv zeta. rewrite Hs1.
      cbn [session_state page sent].
      rewrite after_regenerate_other by done.
      cbn [session_state page sent].
      destruct (result_shown _);
        [destruct (download_offer _) as [[[? ?] ?]|]|];
        cbn [page]; rewrite ?in_app_iff;
        unfold form_elements, footer_elements; cbn [In];
        intuition discriminate.
Qed.

Lemma successful_generate_stores_first_choice_witness :
  let env := Environment (<["GROQ_API_KEY" := lit "gsk"]> ∅) None in
  let inp := Inputs (lit "Test Mug") (lit "Kitchen")
               (lit "- Keeps drinks hot") (lit "Office workers")
               (lit "Friendly") (lit "Short (1 paragraph)")
               (Some GenerateButton) in
  let good : provider :=
    fun _ => inr [PStr (lit "Stay warm."); PStr (lit "second choice")] in
  let lone : provider := fun _ => inr [PStr [0x61; 0xD83D]%N] in
  (session_state (snd (run env inp good ∅)) =
     <["product_name_for_download" := PStr (lit "Test Mug")]>
       (<["generated_output" := PStr (lit "Stay warm.")]> ∅) /\
   In (Success (lit "Content generated successfully!"))
     (page (snd (run env inp good ∅)))) /\
  (session_state (snd (run env inp lone ∅)) !! "generated_output"
   = Some (PStr [0x61; 0xD83D]%N) /\
   ~ In (Success (lit "Content generated successfully!"))
       (page (snd (run env inp lone ∅)))).
Proof.
  intros env inp good lone. split.
  - pose proof (successful_generate_stores_first_choice env inp good ∅
                  (PStr (lit "Stay warm.")) [PStr (lit "second choice")]
                  eq_refl eq_refl ltac:(discriminate) ltac:(discriminate)
                  eq_refl) as (Hs & _ & Hok & _).
    split; [exact Hs|]. exact (proj1 (proj2 (Hok eq_refl))).
  - pose proof (successful_generate_stores_first_choice env inp lone ∅
                  (PStr [0x61; 0xD83D]%N) []
                  eq_refl eq_refl ltac:(discriminate) ltac:(discriminate)
                  eq_refl) as (Hs & _ & _ & Hbad).
    split.
    + rewrite Hs. reflexivity.
    + exact (proj2 (proj2 (Hbad _ eq_refl))).
Defined.

Lemma after_regenerate_clicked prov (key : pyval) inp (s : state) :
  clicked inp = Some RegenerateButton ->
  after_regenerate prov key inp s =
    let req :=
      completion_request key
        (build_prompt (in_product_name inp) (in_product_category inp)
           (in_key_features inp) (in_target_audience inp)
           (in_tone_of_voice inp) (in_description_length inp) 2) in
    match generation prov req with
    | inr v =>
        State (<["generated_output" := v]> (session_state s))
          (page s ++
             Button REGENERATE_LABEL
             :: Spinner (lit "Regenerating content with " ++ GROQ_MODEL ++ lit "...")
             :: Subheader ([0x2728%N] ++ lit " Your Regenerated Content")
             :: rendering v (lit "Content regenerated successfully!")
                  REGENERATION_FAILED REGENERATION_HINT)
          (sent s ++ [req])
    | inl e =>
        State (session_state s)
          (page s ++
             [Button REGENERATE_LABEL;
              Spinner (lit "Regenerating content with " ++ GROQ_MODEL ++ lit "...");
              Error (REGENERATION_FAILED ++ exn_msg e);
              Warning REGENERATION_HINT])
          (sent s ++ [req])
    end.
Proof. intros Hclick. unfold after_regenerate. by decide_click Hclick. Qed.

(** The two states of a regenerate run whose provider gives a first
    choice. *)
Lemma regenerate_run_states env inp prov (session : gmap string pyval)
    (v : pyval) (others : list pyval) :
  clicked inp = Some RegenerateButton ->
  prov (generation_request env inp) = inr (v :: others) ->
  let key := os_getenv env "GROQ_API_KEY" in
  let s1 := after_generate prov key inp
              (State session (form_elements inp) []) in
  s1 = State session (form_elements inp) [] /\
  after_regenerate prov key inp
    (State (session_state s1) (page s1 ++ [Divider]) (sent s1))
  = State (<["generated_output" := v]> session)
      ((form_elements inp ++ [Divider]) ++
         Button REGENERATE_LABEL
         :: Spinner (lit "Regenerating content with " ++ GROQ_MODEL ++ lit "...")
         :: Subheader ([0x2728%N] ++ lit " Your Regenerated Content")
         :: rendering v (lit "Content regenerated successfully!")
              REGENERATION_FAILED REGENERATION_HINT)
      [generation_request env inp].
Proof.
  intros Hclick Hv%generation_first_choice key s1.
  unfold generation_request in Hv. fold key in Hv.
  assert (Hs1 : s1 = State session (form_elements inp) []).
  { apply after_generate_other. by rewrite Hclick. }
  split; [done|]. rewrite Hs1. cbn [session_state page sent].
  rewrite after_regenerate_clicked by done. cbv zeta. by rewrite Hv.
Qed.

(** X8. A regenerate whose call of [create] returns a first choice
    overwrites "generated_output" with its content and leaves every other
    key, in a run that called [create] once; the download button of the
    same run already carries the encoding of the new content (also when
    it is the empty string), under the stored name.  When [st.markdown]
    takes the content, the content and the success message are shown;
    when it raises on it, the content stays stored, but the [except]
    branch shows "An error occurred during regeneration: ..." with that
    exception's message, and no success message. *)
Theorem successful_regenerate_overwrites_result env inp prov
    (session : gmap string pyval) (v : pyval) (others : list pyval) :
  configured env = true ->
  clicked inp = Some RegenerateButton ->
  result_shown session = true ->
  prov (generation_request env inp) = inr (v :: others) ->
  let s := snd (run env inp prov session) in
  session_state s = <["generated_output" := v]> session /\
  sent s = [generation_request env inp] /\
  (markdown_failure v = None ->
   In (Markdown v) (page s) /\
   In (Success (lit "Content regenerated successfully!")) (page s)) /\
  (forall e : exn,
      markdown_failure v = Some e ->
      exn_class e = "UnicodeEncodeError" /\
      In (Error (lit "An error occurred during regeneration: " ++ exn_msg e))
        (page s) /\
      ~ In (Success (lit "Content regenerated successfully!")) (page s)) /\
  (forall (r : pystr) (data : list byte),
      v = PStr r -> utf8_encode r = Some data ->
      In (DownloadButton DOWNLOAD_LABEL data
            (py_str (default (PStr (lit "product"))
                       (session !! "product_name_for_download"))
             ++ lit "_descriptions_hashtags.txt")
            (lit "text/plain")) (page s)).
Proof.
  intros Hc Hclick Hshown Hv s.
  destruct (regenerate_run_states env inp prov session v others Hclick Hv)
    as [Hs1 Hs2].
  cbv zeta in Hs1, Hs2. subst s. split; [|split; [|split; [|split]]].
  - rewrite run_session, Hc. cbv zeta. rewrite Hs2, Hs1.
    cbn [session_state]. by rewrite Hshown.
  - rewrite run_sent, Hc. cbv zeta. rewrite Hs2, Hs1.
    cbn [session_state sent]. by rewrite Hshown.
  - intros Hok. unfold rendering in Hs2. rewrite Hok in Hs2.
    split; (apply run_page_regenerate; [done | by rewrite Hs1 |]);
      rewrite Hs2; cbn [page]; apply in_app_iff; right.
    + right. right. right. by left.
    + right. right. right. right. by left.
  - intros e He. unfold rendering in Hs2. rewrite He in Hs2.
    split; [by eapply markdown_failure_class|]. split.
    + apply run_page_regenerate; [done | by rewrite Hs1 |].
      rewrite Hs2. cbn [page]. apply in_app_iff. right.
      right. right. right. by left.
    + rewrite run_configured by done. cbv zeta. rewrite Hs2, Hs1.
      cbn [session_state page sent]. rewrite Hshown.
      destruct (download_offer _) as [[[? ?] ?]|];
        cbn [page]; rewrite ?in_app_iff;
        unfold form_elements, footer_elements; cbn [In];
        intuition discriminate.
  - intros r data -> Henc. rewrite run_configured by done. cbv zeta.
    rewrite Hs2, Hs1. cbn [session_state page sent]. rewrite Hshown.
    unfold download_offer. rewrite lookup_insert_eq, Henc.
    rewrite lookup_insert_ne by done.
    cbn [page]. apply in_app_iff. right. by left.
Qed.

Lemma successful_regenerate_overwrites_result_witness :
  let env := Environment (<["GROQ_API_KEY" := lit "gsk"]> ∅) None in
  let session : gmap string pyval :=
    <["generated_output" := PStr (lit "old text")]>
      (<["product_name_for_download" := PStr (lit "Mug")]> ∅) in
  let inp := Inputs (lit "Mug") (lit "Kitchen") (lit "- Keeps drinks hot")
               (lit "Office workers") (lit "Friendly")
               (lit "Short (1 paragraph)") (Some RegenerateButton) in
  let good : provider := fun _ => inr [PStr (lit "new text")] in
  let lone : provider := fun _ => inr [PStr [0x61; 0xD83D]%N] in
  (session_state (snd (run env inp good session))
   = <["generated_output" := PStr (lit "new text")]> session /\
   In (Success (lit "Content regenerated successfully!"))
     (page (snd (run env inp good session)))) /\
  (session_state (snd (run env inp lone session))
   = <["generated_output" := PStr [0x61; 0xD83D]%N]> session /\
   ~ In (Success (lit "Content regenerated successfully!"))
       (page (snd (run env inp lone session)))).
Proof.
  intros env session inp good lone. split.
  - pose proof (successful_regenerate_overwrites_result env inp good session
                  (PStr (lit "new text")) [] eq_refl eq_refl eq_refl eq_refl)
      as (Hs & _ & Hok & _).
    split; [exact Hs|]. exact (proj2 (Hok eq_refl)).
  - pose proof (successful_regenerate_overwrites_result env inp lone session
                  (PStr [0x61; 0xD83D]%N) [] eq_refl eq_refl eq_refl eq_refl)
      as (Hs & _ & _ & Hbad & _).
    split; [exact Hs|]. exact (proj2 (proj2 (Hbad _ eq_refl))).
Defined.

(** X9. When the first choice of a regenerate has no content ([None]), it
    is stored all the same, and the download column then fails on
    [None.encode]: the run ends in an uncaught [AttributeError], with no
    download button on the page, and the stored [None] hides the section
    from the next run on. *)
Theorem regenerate_without_content_crashes env inp prov
    (session : gmap string pyval) (others : list pyval) :
  configured env = true ->
  clicked inp = Some RegenerateButton ->
  result_shown session = true ->
  prov (generation_request env inp) = inr (PNone :: others) ->
  let r := run env inp prov session in
  fst r = Raise (Exn "AttributeError"
                   (lit "'NoneType' object has no attribute 'encode'")) /\
  session_state (snd r) !! "generated_output" = Some PNone /\
  (forall el, In el (page (snd r)) -> is_download_button el = false) /\
  result_shown (session_state (snd r)) = false.
Proof.
  intros Hc Hclick Hshown Hv r.
  destruct (regenerate_run_states env inp prov session PNone others
              Hclick Hv) as [Hs1 Hs2].
  cbv zeta in Hs1, Hs2. subst r.
  rewrite run_configured_full by done. cbv zeta.
  rewrite Hs2, Hs1. cbn [session_state page sent]. rewrite Hshown.
  unfold download_offer, download_error, result_shown.
  rewrite !lookup_insert_eq. cbn [fst snd session_state page truthy].
  rewrite !lookup_insert_eq.
  split; [done|]. split; [done|]. split; [|done].
  intros el. rewrite !in_app_iff. unfold form_elements, rendering.
  cbn [In markdown_failure]. intuition (subst; reflexivity).
Qed.

Lemma regenerate_without_content_crashes_witness :
  let env := Environment (<["GROQ_API_KEY" := lit "gsk"]> ∅) None in
  let prov : provider := fun _ => inr [PNone] in
  let session : gmap string pyval :=
    <["generated_output" := PStr (lit "old text")]>
      (<["product_name_for_download" := PStr (lit "Mug")]> ∅) in
  let inp := Inputs (lit "Mug") (lit "Kitchen") (lit "- Keeps drinks hot")
               (lit "Office workers") (lit "Friendly")
               (lit "Short (1 paragraph)") (Some RegenerateButton) in
  fst (run env inp prov session)
  = Raise (Exn "AttributeError"
             (lit "'NoneType' object has no attribute 'encode'")).
Proof.
  intros env prov session inp.
  refine (proj1 (regenerate_without_content_crashes env inp prov session []
                   eq_refl eq_refl eq_refl eq_refl)).
Defined.

(** ** The download column on stored results *)

(** The states of a run that is no click on generate or regenerate, from a
    session whose result is shown. *)
Lemma idle_run_states env inp prov (session : gmap string pyval) :
  clicked inp <> Some GenerateButton ->
  clicked inp <> Some RegenerateButton ->
  let key := os_getenv env "GROQ_API_KEY" in
  let s1 := after_generate prov key inp
              (State session (form_elements inp) []) in
  s1 = State session (form_elements inp) [] /\
  after_regenerate prov key inp
    (State (session_state s1) (page s1 ++ [Divider]) (sent s1))
  = State session
      ((form_elements inp ++ [Divider]) ++ [Button REGENERATE_LABEL]) [].
Proof.
  intros Hg Hr key s1.
  assert (Hs1 : s1 = State session (form_elements inp) []).
  { by apply after_generate_other. }
  split; [done|]. rewrite Hs1. cbn [session_state page sent].
  by rewrite after_regenerate_other.
Qed.

(** X11. With a stored result made of Unicode scalar values (no
    surrogate), a run that is no generate or regenerate click ends
    normally, with the whole page: form, regenerate button, download
    button and footer; the bytes offered are between one and four per
    code point. *)
Theorem download_of_scalar_text env inp prov
    (session : gmap string pyval) (r : pystr) :
  configured env = true ->
  clicked inp <> Some GenerateButton ->
  clicked inp <> Some RegenerateButton ->
  session !! "generated_output" = Some (PStr r) ->
  r <> [] ->
  Forall (fun ch => is_scalar ch = true) r ->
  exists data : list byte,
    utf8_encode r = Some data /\
    (length r <= length data <= 4 * length r)%nat /\
    run env inp prov session =
      (Return tt,
       State session
         (form_elements inp ++
            [Divider; Button REGENERATE_LABEL;
             DownloadButton DOWNLOAD_LABEL data
               (py_str (default (PStr (lit "product"))
                          (session !! "product_name_for_download"))
                ++ lit "_descriptions_hashtags.txt")
               (lit "text/plain")]
            ++ footer_elements)
         []).
Proof.
  intros Hc Hg Hr Hgo Hne Hsc.
  destruct (utf8_encode_scalars r Hsc) as (data & Henc & Hlen).
  exists data. split; [done|]. split; [done|].
  destruct (idle_run_states env inp prov session Hg Hr) as [Hs1 Hs2].
  cbv zeta in Hs1, Hs2.
  rewrite run_configured_full by done. cbv zeta.
  rewrite Hs2, Hs1. cbn [session_state page sent].
  unfold result_shown, download_offer. rewrite Hgo, Henc.
  cbn [truthy]. rewrite (nonempty_true r Hne).
  rewrite <- ?app_assoc. reflexivity.
Qed.

Lemma download_of_scalar_text_witness :
  let env := Environment (<["GROQ_API_KEY" := lit "gsk"]> ∅) None in
  let session : gmap string pyval :=
    <["generated_output" := PStr [0x63; 0xE9; 0x1F680]%N]>
      (<["product_name_for_download" := PStr (lit "Mug")]> ∅) in
  exists data : list byte,
    utf8_encode [0x63; 0xE9; 0x1F680]%N = Some data /\
    (3 <= length data <= 12)%nat.
Proof.
  intros env session.
  destruct (download_of_scalar_text env initial_inputs
              (fun _ => inr []) session [0x63; 0xE9; 0x1F680]%N)
    as (data & Henc & Hlen & _);
    [reflexivity | discriminate | discriminate | reflexivity | discriminate
    | repeat constructor |].
  exists data. split; [exact Henc | exact Hlen].
Defined.

(** X12. A stored result that holds a surrogate cannot be encoded: a run
    that shows it ends in the uncaught [UnicodeEncodeError] of
    [encode("utf-8")], whose message names the first surrogate and its
    position (or the positions of the run of surrogates), after the
    regenerate button, without download button and without footer, the
    session unchanged. *)
Theorem download_of_surrogate_crashes env inp prov
    (session : gmap string pyval) (r : pystr) :
  configured env = true ->
  clicked inp <> Some GenerateButton ->
  clicked inp <> Some RegenerateButton ->
  session !! "generated_output" = Some (PStr r) ->
  Exists (fun ch => is_scalar ch = false) r ->
  run env inp prov session =
    (Raise (Exn "UnicodeEncodeError" (unicode_encode_message r)),
     State session
       (form_elements inp ++ [Divider; Button REGENERATE_LABEL]) []).
Proof.
  intros Hc Hg Hr Hgo Hsur.
  pose proof (utf8_encode_refused r Hsur) as Henc.
  assert (Hne : r <> []) by (intros ->; inversion Hsur).
  destruct (idle_run_states env inp prov session Hg Hr) as [Hs1 Hs2].
  cbv zeta in Hs1, Hs2.
  rewrite run_configured_full by done. cbv zeta.
  rewrite Hs2, Hs1. cbn [session_state page sent].
  unfold result_shown, download_offer, download_error. rewrite Hgo, Henc.
  cbn [truthy]. rewrite (nonempty_true r Hne).
  rewrite <- ?app_assoc. reflexivity.
Qed.

Lemma download_of_surrogate_crashes_witness :
  let env := Environment (<["GROQ_API_KEY" := lit "gsk"]> ∅) None in
  let stored (r : pystr) : gmap string pyval :=
    <["generated_output" := PStr r]>
      (<["product_name_for_download" := PStr (lit "Mug")]> ∅) in
  fst (run env initial_inputs (fun _ => inr [])
         (stored [0x61; 0xD83D]%N))
  = Raise (Exn "UnicodeEncodeError"
             (lit "'utf-8' codec can't encode character '\ud83d' in position 1: surrogates not allowed")) /\
  fst (run env initial_inputs (fun _ => inr [])
         (stored [0x61; 0x62; 0xD83D; 0xDE00; 0x63]%N))
  = Raise (Exn "UnicodeEncodeError"
             (lit "'utf-8' codec can't encode characters in position 2-3: surrogates not allowed")).
Proof.
  intros env stored. split.
  - rewrite (download_of_surrogate_crashes env initial_inputs
               (fun _ => inr []) (stored [0x61; 0xD83D]%N)
               [0x61; 0xD83D]%N);
      [reflexivity | reflexivity | discriminate | discriminate
      | reflexivity |].
    apply Exists_cons_tl, Exists_cons_hd. reflexivity.
  - rewrite (download_of_surrogate_crashes env initial_inputs
               (fun _ => inr [])
               (stored [0x61; 0x62; 0xD83D; 0xDE00; 0x63]%N)
               [0x61; 0x62; 0xD83D; 0xDE00; 0x63]%N);
      [reflexivity | reflexivity | discriminate | discriminate
      | reflexivity |].
    apply Exists_cons_tl, Exists_cons_tl, Exists_cons_hd. reflexivity.
Defined.

(** ** The session dictionary *)

Lemma run_interaction_keys (session : gmap string pyval) (i : interaction) :
  dom session ⊆ dom (session_state (run_interaction session i)) /\
  dom (session_state (run_interaction session i))
    ⊆ dom session ∪ SESSION_KEYS.
Proof.
  unfold run_interaction. rewrite run_session.
  unfold after_generate, after_regenerate, SESSION_KEYS.
  repeat case_match; cbn [session_state]; rewrite ?dom_insert_L;
    set_solver.
Qed.

(** X13. The script never deletes a session key and writes no key other
    than "generated_output" and "product_name_for_download": over any
    history the keys only grow, and only by these two. *)
Theorem session_keys_grow_by_two (session : gmap string pyval)
    (history : list interaction) :
  dom session ⊆ dom (session_after session history) /\
  dom (session_after session history)
    ⊆ dom session ∪ {["generated_output"; "product_name_for_download"]}.
Proof.
  induction history as [|i history [IH1 IH2]] using rev_ind.
  - unfold session_after. cbn [fold_left]. set_solver.
  - rewrite session_after_snoc.
    destruct (run_interaction_keys (session_after session history) i)
      as [H1 H2].
    unfold SESSION_KEYS in H2. set_solver.
Qed.

(** ** What is on the page *)

Lemma regenerate_label_fresh : GENERATE_LABEL <> REGENERATE_LABEL.
Proof. unfold GENERATE_LABEL, REGENERATE_LABEL. cbn [app]. discriminate. Qed.

(** X14. The regenerate and download buttons depend on the stored result:
    without a truthy one, a run that is no generate click shows neither;
    with one, a configured run that is no generate click shows the
    regenerate button. *)
Theorem result_section_visibility env inp prov
    (session : gmap string pyval) :
  clicked inp <> Some GenerateButton ->
  let s := snd (run env inp prov session) in
  (result_shown session = false ->
   ~ In (Button REGENERATE_LABEL) (page s) /\
   forall el, In el (page s) -> is_download_button el = false) /\
  (result_shown session = true -> configured env = true ->
   In (Button REGENERATE_LABEL) (page s)).
Proof.
  intros Hg s. subst s. split.
  - intros Hshown. destruct (configured env) eqn:Hc.
    + rewrite run_configured by done. cbv zeta.
      rewrite after_generate_other by done. cbn [session_state page sent].
      rewrite Hshown. cbn [page]. unfold form_elements, footer_elements.
      split.
      * rewrite in_app_iff. cbn [In].
        pose proof regenerate_label_fresh.
        intuition (try discriminate; try congruence).
      * intros el. rewrite in_app_iff. cbn [In].
        intuition (subst; reflexivity).
    + destruct (run_not_configured env inp prov session Hc) as [msg ->].
      cbn [snd page In]. split.
      * intuition discriminate.
      * intros el [<-|[]]. reflexivity.
  - intros Hshown Hc. apply run_page_regenerate; [done| |];
      rewrite after_generate_other by done; cbn [session_state page sent];
      [done|].
    unfold after_regenerate. case_match.
    + case_match; cbn [page]; apply in_app_iff; right; by left.
    + cbn [page]. apply in_app_iff. right. by left.
Qed.

Lemma result_section_visibility_witness :
  let env := Environment (<["GROQ_API_KEY" := lit "gsk"]> ∅) None in
  let session : gmap string pyval :=
    <["generated_output" := PStr (lit "old text")]>
      (<["product_name_for_download" := PStr (lit "Mug")]> ∅) in
  ~ In (Button REGENERATE_LABEL)
      (page (snd (run env initial_inputs (fun _ => inr []) ∅))) /\
  In (Button REGENERATE_LABEL)
    (page (snd (run env initial_inputs (fun _ => inr []) session))).
Proof.
  intros env session. split.
  - refine (proj1 (proj1 (result_section_visibility env initial_inputs
                            (fun _ => inr []) ∅ _) eq_refl)).
    discriminate.
  - refine (proj2 (result_section_visibility env initial_inputs
                     (fun _ => inr []) session _) eq_refl eq_refl).
    discriminate.
Defined.

(** X15. A configured run that is no generate or regenerate click, from a
    session with no truthy result (a first visit, or after a result that
    was empty), shows the form and the footer and nothing else, and ends
    normally with the session as it was. *)
Theorem idle_run_page env inp prov (session : gmap string pyval) :
  configured env = true ->
  clicked inp <> Some GenerateButton ->
  clicked inp <> Some RegenerateButton ->
  result_shown session = false ->
  run env inp prov session =
    (Return tt,
     State session (form_elements inp ++ footer_elements) []).
Proof.
  intros Hc Hg Hr Hshown. rewrite run_configured_full by done. cbv zeta.
  rewrite after_generate_other by done. cbn [session_state page sent].
  by rewrite Hshown.
Qed.

Lemma idle_run_page_witness :
  let env := Environment (<["GROQ_API_KEY" := lit "gsk"]> ∅) None in
  run env initial_inputs (fun _ => inr []) ∅ =
    (Return tt,
     State ∅ (form_elements initial_inputs ++ footer_elements) []).
Proof.
  intros env.
  apply (idle_run_page env initial_inputs (fun _ => inr []) ∅);
    [reflexivity | discriminate | discriminate | reflexivity].
Defined.

(** ** More on the prompt *)

(** X17. The length phrase is always one of the three known phrases; each
    option of the length radio is a key of the table and maps to the
    phrase its own label shows, so the default is only met by values the
    form cannot send; and the radio's initial option gives the same phrase
    as that default. *)
Theorem length_phrase_always_known :
  (forall v : pystr,
      actual_description_length v = lit "1 paragraph" \/
      actual_description_length v = lit "2 paragraphs" \/
      actual_description_length v = lit "3 paragraphs") /\
  (forall o : pystr,
      In o length_options ->
      is_Some (paragraph_map !! o) /\
      contains (actual_description_length o) o = true) /\
  actual_description_length (in_description_length initial_inputs)
  = lit "2 paragraphs".
Proof.
  split; [|split].
  - intros v. unfold actual_description_length, paragraph_map.
    rewrite !lookup_insert, lookup_empty.
    repeat case_decide; cbn [default]; auto.
  - intros o Ho. unfold length_options in Ho. cbn [In] in Ho.
    destruct Ho as [<-|[<-|[<-|[]]]];
      (split; [vm_compute; by eexists | by vm_compute]).
  - by vm_compute.
Qed.

Lemma length_phrase_always_known_witness :
  is_Some (paragraph_map !! lit "Long (3 paragraphs)") /\
  contains (actual_description_length (lit "Long (3 paragraphs)"))
    (lit "Long (3 paragraphs)") = true.
Proof.
  apply (proj1 (proj2 length_phrase_always_known)
           (lit "Long (3 paragraphs)")).
  right. right. left. reflexivity.
Defined.

Lemma is_substring_trim (a l r target whole : pystr) (k1 k2 : nat) :
  target = skipn k1 l ++ a ++ firstn k2 r ->
  is_substring (l ++ a ++ r) whole ->
  is_substring target whole.
Proof.
  intros -> (pre & post & ->).
  exists (pre ++ firstn k1 l), (skipn k2 r ++ post).
  rewrite <- (firstn_skipn k1 l) at 1.
  rewrite <- (firstn_skipn k2 r) at 1.
  by rewrite <- !app_assoc.
Qed.

Lemma is_substring_head3 (a b c rest : pystr) :
  is_substring (a ++ b ++ c) (a ++ b ++ c ++ rest).
Proof. exists [], rest. by rewrite <- !app_assoc. Qed.

(** Finds [lit S1 ++ a ++ lit S2] in a prompt where [a] stands between two
    longer literals, the first ending in [S1] and the second starting with
    [S2]. *)
Ltac find_sentence a :=
  cbv zeta; rewrite <- ?app_assoc;
  lazymatch goal with
  | |- is_substring (lit ?S1 ++ a ++ lit ?S2) ?whole =>
      match whole with
      | context [lit ?L1 ++ a ++ lit ?L2 ++ _] =>
          let k1 := eval vm_compute in
            (length (lit L1) - length (lit S1))%nat in
          let k2 := eval vm_compute in (length (lit S2)) in
          apply (is_substring_trim a (lit L1) (lit L2) _ _ k1 k2);
          [ vm_compute; reflexivity
          | repeat lazymatch goal with
              | |- is_substring (?x ++ _) (?x ++ _) =>
                  apply is_substring_head3
              | |- is_substring _ (_ ++ _) => apply is_substring_app_r
              end ]
      end
  end.

(** X18. The tone of voice is in the prompt unmodified; the request
    sentence carries the decimal numeral of the count, whatever integer it
    is (zero and negative counts are not refused); and the length phrase
    stands in the sentence on the length of each description. *)
Theorem prompt_carries_tone_count_and_length name cat feats aud tone len
    (n : Z) :
  let p := build_prompt name cat feats aud tone len n in
  is_substring tone p /\
  is_substring
    (lit "Please generate " ++ str_of_int n
     ++ lit " distinct product description(s)") p /\
  is_substring
    (lit "Each description should be approximately "
     ++ actual_description_length len ++ lit " long.") p.
Proof.
  cbv zeta. unfold build_prompt, prompt_brief. split; [|split].
  - find_field.
  - find_sentence (str_of_int n).
  - find_sentence (actual_description_length len).
Qed.

(** The numeral of the count: digits, with a minus sign when negative. *)
Example str_of_int_examples :
  str_of_int 2 = lit "2" /\ str_of_int 0 = lit "0" /\
  str_of_int 10 = lit "10" /\ str_of_int (-3) = lit "-3".
Proof. by vm_compute. Qed.

(** ** A generate that brings no text *)

(** X19. When the first choice of a generate has no content or empty
    content, it is stored and reported as a success all the same, but the
    result section stays hidden in that run: the page goes from the
    success message straight to the footer, with no regenerate and no
    download button. *)
Theorem generate_without_text env inp prov (session : gmap string pyval)
    (v : pyval) (others : list pyval) :
  configured env = true ->
  clicked inp = Some GenerateButton ->
  in_product_name inp <> [] -> in_key_features inp <> [] ->
  prov (generation_request env inp) = inr (v :: others) ->
  truthy v = false ->
  run env inp prov session =
    (Return tt,
     State
       (<["product_name_for_download" := PStr (in_product_name inp)]>
          (<["generated_output" := v]> session))
       (form_elements inp ++
          [Spinner (lit "Creating content with " ++ GROQ_MODEL ++ lit "...");
           Subheader ([0x2728%N] ++ lit " Your Generated Content");
           Markdown v;
           Success (lit "Content generated successfully!")]
          ++ footer_elements)
       [generation_request env inp]).
Proof.
  intros Hc Hclick Hn Hf Hv%generation_first_choice Hfalsy.
  unfold generation_request in Hv.
  pose proof (after_generate_clicked prov (os_getenv env "GROQ_API_KEY")
                inp (State session (form_elements inp) []) Hclick Hn Hf)
    as Hs1.
  cbv zeta in Hs1. rewrite Hv in Hs1. cbn [session_state page sent] in Hs1.
  unfold rendering in Hs1. rewrite (markdown_failure_falsy v Hfalsy) in Hs1.
  rewrite run_configured_full by done. cbv zeta. rewrite Hs1.
  cbn [session_state page sent]. unfold result_shown.
  rewrite lookup_insert_ne by done. rewrite lookup_insert_eq, Hfalsy.
  rewrite <- ?app_assoc. reflexivity.
Qed.

Lemma generate_without_text_witness :
  let env := Environment (<["GROQ_API_KEY" := lit "gsk"]> ∅) None in
  let prov : provider := fun _ => inr [PNone] in
  let inp := Inputs (lit "Test Mug") (lit "Kitchen")
               (lit "- Keeps drinks hot") (lit "Office workers")
               (lit "Friendly") (lit "Short (1 paragraph)")
               (Some GenerateButton) in
  fst (run env inp prov ∅) = Return tt /\
  session_state (snd (run env inp prov ∅)) !! "generated_output"
  = Some PNone.
Proof.
  intros env prov inp.
  rewrite (generate_without_text env inp prov ∅ PNone []);
    [split; reflexivity | reflexivity | reflexivity | discriminate
    | discriminate | reflexivity | reflexivity].
Defined.
